(** * Survey Response Explorer (vis.py): a shallow embedding and its properties

    The script is a Streamlit page: every user interaction re-runs [main]
    from top to bottom against the per-session dictionary
    [st.session_state].  The development has three layers:

    - [Pd]: the fragment of pandas the script calls ([reset_index],
      [rename], [iloc], label lookup in a row, [isna]);
    - [St]: the fragment of Streamlit the script calls (session state,
      [selectbox], the keyed [radio]) and a small monad in which one run of
      the script is written;
    - [Vis]: the script itself, statement by statement.

    CSV parsing is pandas' business: a file comes in as the table that
    [read_csv] returns for it, or as the fact that [read_csv] raised. *)

From stdpp Require Import base option list strings.
From Stdlib Require Import ZArith Lia Ascii.

Local Open Scope string_scope.
Local Open Scope list_scope.
Local Open Scope Z_scope.

(** ** Python strings: [str.lower] and the [in] operator *)

Module Py.

(** [c.lower()] on one character.  Only the letters A..Z change; the bytes
    of a multi-byte UTF-8 character are all above 127 and stay as they
    are, and no character outside A..Z lower-cases to one of n, a, m, e. *)
Definition lower_ascii (c : ascii) : ascii :=
  let n := N_of_ascii c in
  if ((65 <=? n) && (n <=? 90))%N then ascii_of_N (n + 32) else c.

Fixpoint lower (s : string) : string :=
  match s with
  | EmptyString => EmptyString
  | String c t => String (lower_ascii c) (lower t)
  end.

(** [s.startswith(p)] *)
Fixpoint startswith (s p : string) {struct p} : bool :=
  match p, s with
  | EmptyString, _ => true
  | String _ _, EmptyString => false
  | String c p', String d s' =>
      if Ascii.eqb c d then startswith s' p' else false
  end.

(** [needle in hay] on strings: [needle] starts at some position of
    [hay]. *)
Fixpoint contains (needle hay : string) : bool :=
  if startswith hay needle then true
  else match hay with
       | EmptyString => false
       | String _ t => contains needle t
       end.

End Py.

(** ** pandas *)

Module Pd.

(** A cell as [read_csv] delivers it: missing ([NaN]), a number or text.
    How a cell is printed inside a box is not modelled: a box holds the
    cell itself. *)
Inductive scalar :=
| NaN
| Int (n : Z)
| Str (s : string).

#[global] Instance scalar_eq_dec : EqDecision scalar.
Proof. solve_decision. Defined.

(** [pd.isna(val)] *)
Definition isna (v : scalar) : bool :=
  match v with NaN => true | _ => false end.

(** A [DataFrame] with the default [RangeIndex]: the column labels in
    order and the rows in order, each row holding one cell per column. *)
Record DataFrame := mkDataFrame {
  columns : list string;
  values : list (list scalar)
}.

(** What [read_csv] guarantees: column labels are pairwise distinct
    (duplicates in the header are renamed apart) and the table is
    rectangular. *)
Record wf (df : DataFrame) : Prop := {
  wf_nodup : NoDup (columns df);
  wf_rect : Forall (λ row, length row = length (columns df)) (values df)
}.

(** [len(df)] *)
Definition nrows (df : DataFrame) : nat := length (values df).

(** [df.index]: the positions 0 .. N-1. *)
Definition index (df : DataFrame) : list Z := seqZ 0 (Z.of_nat (nrows df)).

(** [df.columns.get_loc(label)] for distinct labels: the position of the
    label. *)
Definition get_loc (label : string) (cols : list string) : option nat :=
  fst <$> list_find (λ c, c = label) cols.

(** [df.insert(0, name, index values)] as [reset_index] performs it: the
    old index becomes the first column. *)
Definition insert_index (name : string) (df : DataFrame) : DataFrame :=
  {| columns := name :: columns df;
     values := imap (λ i row, Int (Z.of_nat i) :: row) (values df) |}.

(** [df.reset_index(inplace=True)] on an unnamed index.  The new column
    is called "index", or "level_0" when a column "index" is already
    there; inserting a label that exists raises [ValueError]. *)
Definition reset_index (df : DataFrame) : option DataFrame :=
  let name := if decide ("index" ∈ columns df) then "level_0" else "index" in
  if decide (name ∈ columns df) then None
  else Some (insert_index name df).

(** [df.rename(columns={old: new}, inplace=True)] *)
Definition rename (old new : string) (df : DataFrame) : DataFrame :=
  {| columns := (λ c, if decide (c = old) then new else c) <$> columns df;
     values := values df |}.

(** A row as a [Series]: the cells of the row under the column labels. *)
Definition Series := list (string * scalar).

(** [df.iloc[i]] for an integer position: a negative position counts
    from the end, and a position outside the table raises [IndexError]. *)
Definition iloc (df : DataFrame) (i : Z) : option Series :=
  let pos := if decide (0 ≤ i) then i else Z.of_nat (nrows df) + i in
  if decide (0 ≤ pos) then zip (columns df) <$> values df !! Z.to_nat pos
  else None.

(** [df.iterrows()]: the rows in order, each as a [Series]. *)
Definition iterrows (df : DataFrame) : list Series :=
  zip (columns df) <$> values df.

(** [row[label]]; [None] stands for Python's [None] used as a label, and
    a label that is not in the row raises [KeyError]. *)
Definition getitem (row : Series) (label : option string) : option scalar :=
  l ← label; (snd ∘ snd) <$> list_find (λ p, p.1 = l) row.

End Pd.

(** ** Streamlit *)

Module St.

(** The three options of the "Select View:" radio, in the order of the
    script: "Overview & Sorting", "Individual Detail View" and
    "Question Analysis View". *)
Inductive view_mode := Overview | Detail | Question.

#[global] Instance view_mode_eq_dec : EqDecision view_mode.
Proof. solve_decision. Defined.

Definition label (m : view_mode) : string :=
  match m with
  | Overview => "Overview & Sorting"
  | Detail => "Individual Detail View"
  | Question => "Question Analysis View"
  end.

(** The value Streamlit keeps under the key of a data grid built with
    [on_select="rerun"]: a dictionary with a "selection" entry, itself a
    dictionary with a "rows" entry, the positions of the selected rows.
    An absent entry is [None]. *)
Record selection_state := mkSelection { rows : option (list Z) }.
Record grid_state := mkGrid { selection : option selection_state }.

(** [st.session_state]: the three keys the script touches.
    [selected_index] holds a Python value, an integer or [None];
    a key that is not in the dictionary is [None] for the two widget
    keys.  Lines 13-14 of the script put [selected_index] there with the
    value 0 before [main] first runs. *)
Record session_state := mkSession {
  selected_index : option Z;
  view_mode_selector : option view_mode;
  response_grid : option grid_state
}.

Definition initial_session : session_state :=
  {| selected_index := Some 0;
     view_mode_selector := None;
     response_grid := None |}.

(** What the browser holds for the dropdowns that have no key: the
    position the user picked in each, if the user picked one. *)
Record frontend := mkFrontend {
  name_pick : option nat;
  row_pick : option nat;
  question_pick : option nat
}.

Definition untouched : frontend :=
  {| name_pick := None; row_pick := None; question_pick := None |}.

Inductive exn :=
| StreamlitAPIException
| ValueError
| TypeError
| KeyError
| IndexError.

(** One run of the script leaves a record of what it did, top to bottom:
    the elements it put on the page, the widgets it built and the
    assignments it made to the selection keys of the session. *)
Inductive action :=
| Text (what : string)                 (* fixed text: titles, captions, CSS *)
| Error_box                            (* st.error *)
| Selectbox_name (index : option Z)    (* identifier-column dropdown *)
| Write_selected_index (v : option Z)  (* st.session_state.selected_index = v *)
| Write_view_mode (m : view_mode)      (* st.session_state.view_mode_selector = m *)
| Radio (shown : view_mode)            (* view-mode radio, showing [shown] *)
| Grid                                 (* st.dataframe with row selection *)
| Selectbox_row (index : option Z)     (* row dropdown, preselecting [index] *)
| Selectbox_question (index : option Z)
| Heading_name (v : Pd.scalar)         (* "### {row_data[name_col]}" *)
| Heading_question (q : option string) (* "### {selected_question}" *)
| Box (question answer : Pd.scalar).   (* one response box *)

#[global] Instance action_eq_dec : EqDecision action.
Proof. solve_decision. Defined.

Record world := mkWorld { ss : session_state; trace : list action }.

(** A run either reaches its end or stops at an uncaught exception; the
    session and the page as they are at that point stay. *)
Inductive outcome (A : Type) :=
| Ok (a : A) (w : world)
| Raise (e : exn) (w : world).
Arguments Ok {A} a w.
Arguments Raise {A} e w.

Definition M (A : Type) : Type := world → outcome A.

Definition ret {A} (a : A) : M A := λ w, Ok a w.

Definition bind {A B} (m : M A) (k : A → M B) : M B :=
  λ w, match m w with
       | Ok a w' => k a w'
       | Raise e w' => Raise e w'
       end.

Definition raise {A} (e : exn) : M A := λ w, Raise e w.

(** An optional result of a library call that raises [e] when it fails. *)
Definition or_raise {A} (e : exn) (o : option A) : M A :=
  match o with Some a => ret a | None => raise e end.

Definition say (a : action) : M unit :=
  λ w, Ok tt {| ss := ss w; trace := trace w ++ [a] |}.

Definition get : M session_state := λ w, Ok (ss w) w.

Fixpoint for_ {A} (l : list A) (body : A → M unit) : M unit :=
  match l with
  | [] => ret tt
  | x :: l' => bind (body x) (λ _, for_ l' body)
  end.

(** The state of the world after a run, whichever way it ended. *)
Definition final {A} (o : outcome A) : world :=
  match o with Ok _ w => w | Raise _ w => w end.

(** The session with a new value under one key. *)
Definition with_selected_index (v : option Z) (s : session_state)
    : session_state :=
  {| selected_index := v;
     view_mode_selector := view_mode_selector s;
     response_grid := response_grid s |}.

Definition with_view_mode (m : view_mode) (s : session_state)
    : session_state :=
  {| selected_index := selected_index s;
     view_mode_selector := Some m;
     response_grid := response_grid s |}.

(** Assignments to the two selection keys of [st.session_state]. *)
Definition set_selected_index (v : option Z) : M unit :=
  λ w, Ok tt {| ss := with_selected_index v (ss w);
                trace := trace w ++ [Write_selected_index v] |}.

Definition is_radio (a : action) : bool :=
  match a with Radio _ => true | _ => false end.

(** Streamlit refuses an assignment to the key of a widget that the run
    has already built ("cannot be modified after the widget is
    instantiated"). *)
Definition set_view_mode_selector (m : view_mode) : M unit :=
  λ w, if existsb is_radio (trace w) then Raise StreamlitAPIException w
       else Ok tt {| ss := with_view_mode m (ss w);
                     trace := trace w ++ [Write_view_mode m] |}.

(** The index test of [st.selectbox]: with options to choose from, an
    integer [index] outside [0, len(options)) is refused with
    [StreamlitAPIException]. *)
Definition index_refused {A} (options : list A) (index : option Z) : bool :=
  match index with
  | Some i =>
      bool_decide (options ≠ []) &&
      negb (bool_decide (0 ≤ i < Z.of_nat (length options)))
  | None => false
  end.

(** The value of a [st.selectbox] that has no key: the option the user
    picked in it, and otherwise the option at [index]; Python's [None]
    when there is neither ([index=None], or no options at all). *)
Definition selectbox_value {A} (options : list A) (index : option Z)
    (picked : option nat) : option A :=
  match picked ≫= (options !!.) with
  | Some v => Some v
  | None => i ← index; options !! Z.to_nat i
  end.

(** [st.selectbox(label, options, index, format_func)]: the index test,
    then [format_func] on every option for its label, then the widget. *)
Definition selectbox {A} (widget : option Z → action) (options : list A)
    (index : option Z) (format_func : A → M unit) (picked : option nat)
    : M (option A) :=
  if index_refused options index then raise StreamlitAPIException
  else bind (for_ options format_func) (λ _,
       bind (say (widget index)) (λ _,
       ret (selectbox_value options index picked))).

(** [st.radio(label, options, key="view_mode_selector")]: a widget with a
    key shows the value the session holds under the key; when the session
    holds none, it shows its first option and the session gets that
    value. *)
Definition radio : M view_mode :=
  λ w, let m := default Overview (view_mode_selector (ss w)) in
       Ok m {| ss := with_view_mode m (ss w);
               trace := trace w ++ [Radio m] |}.

Definition with_response_grid (g : option grid_state) (s : session_state)
    : session_state :=
  {| selected_index := selected_index s;
     view_mode_selector := view_mode_selector s;
     response_grid := g |}.

(** The value of a data grid in which no row is selected. *)
Definition empty_selection : grid_state :=
  {| selection := Some {| rows := Some [] |} |}.

(** [st.dataframe(df, on_select="rerun", selection_mode="single-row",
    key="response_grid")]: the grid is shown, and the session holds its
    selection under the key: the one it already holds there, and an empty
    selection when it holds none. *)
Definition dataframe : M unit :=
  λ w, Ok tt {| ss := with_response_grid
                        (Some (default empty_selection (response_grid (ss w))))
                        (ss w);
                trace := trace w ++ [Grid] |}.

Definition is_grid (a : action) : bool :=
  match a with Grid => true | _ => false end.

(** When a run has reached its end, Streamlit drops from the session the
    state of the widgets with a key that the run did not build: here the
    view-mode radio and the data grid.  A run that stops at an uncaught
    exception keeps the session as the exception found it. *)
Definition drop_unbuilt (w : world) : world :=
  {| ss := {| selected_index := selected_index (ss w);
              view_mode_selector :=
                if existsb is_radio (trace w) then view_mode_selector (ss w)
                else None;
              response_grid :=
                if existsb is_grid (trace w) then response_grid (ss w)
                else None |};
     trace := trace w |}.

Definition on_script_finished {A} (o : outcome A) : outcome A :=
  match o with
  | Ok a w => Ok a (drop_unbuilt w)
  | Raise e w => Raise e w
  end.

(** Between two runs Streamlit stores what the user did under the key of
    the widget: the option chosen in the radio, the row clicked in the
    grid. *)
Definition pick_view_mode (m : view_mode) (s : session_state) : session_state :=
  with_view_mode m s.

Definition click_row (i : Z) (s : session_state) : session_state :=
  {| selected_index := selected_index s;
     view_mode_selector := view_mode_selector s;
     response_grid := Some {| selection := Some {| rows := Some [i] |} |} |}.

(** The world with more on the page. *)
Definition tell (l : list action) (w : world) : world :=
  {| ss := ss w; trace := trace w ++ l |}.

(** Started in [w], the computation adds to the record of the run only
    actions that satisfy [P], however it ends. *)
Definition emits_at {A} (P : action → Prop) (m : M A) (w : world) : Prop :=
  ∃ l, trace (final (m w)) = trace w ++ l ∧ Forall P l.

Definition emits {A} (P : action → Prop) (m : M A) : Prop :=
  ∀ w, emits_at P m w.

(** The computation leaves the session as it finds it, however it ends. *)
Definition keeps {A} (m : M A) : Prop :=
  ∀ w, ss (final (m w)) = ss w.

End St.

Notation "x ←' m ; k" := (St.bind m (λ x, k))
  (at level 20, m at level 100, k at level 200, only parsing, right associativity).
Notation "m ;;' k" := (St.bind m (λ _, k))
  (at level 100, k at level 200, only parsing, right associativity).

(** ** The script *)

Module Vis.
Import Pd St.

(** What [main] finds in the sidebar uploader: nothing; nothing, but the
    "Load Example Survey Data" button was pressed, which feeds the built-in
    text to [read_csv]; or a file.  [parsed] is what [read_csv] makes of
    the text, [None] when it raises. *)
Inductive upload :=
| NoFile
| Example (parsed : option DataFrame)
| File (parsed : option DataFrame).

(** Lines 56-59: add a virtual index column if one does not exist. *)
Definition add_row_id (df : DataFrame) : option DataFrame :=
  if decide ("Row_ID" ∉ columns df) then
    rename "index" "Row_ID" <$> reset_index df
  else Some df.

(** Lines 65-66. *)
Definition possible_names (df : DataFrame) : list string :=
  List.filter (λ col, Py.contains "name" (Py.lower col)) (columns df).

Definition default_name_index (df : DataFrame) : option nat :=
  match possible_names df with
  | first :: _ => get_loc first (columns df)
  | [] => Some 0%nat
  end.

(** Lines 78-82: a row selected in the grid of the overview. *)
Definition handle_selection : M unit :=
  s ←' get;
  match response_grid s with
  | Some grid =>
      let selection := default {| rows := None |} (selection grid) in
      match rows selection with
      | Some (first :: _) =>
          set_selected_index (Some first);;'
          set_view_mode_selector Detail
      | _ => ret tt
      end
  | None => ret tt
  end.

(** Lines 75-91: the selection from the overview is handled before the
    navigation radio is built. *)
Definition navigation : M view_mode :=
  handle_selection;;'
  say (Text "3. View Mode");;'
  radio.

(** Lines 94-111. *)
Definition overview_mode (df : DataFrame) : M unit :=
  say (Text "Global Overview");;'
  say (Text "Response Data Grid");;'
  say (Text "Select a row below to jump to their details.");;'
  dataframe.

(** Lines 121-123; the label itself only goes to the dropdown. *)
Definition get_label (df : DataFrame) (name_col : option string) (index : Z)
    : M unit :=
  row ←' or_raise IndexError (iloc df index);
  val ←' or_raise KeyError (getitem row name_col);
  ret tt.

(** Lines 176-192: one box per column of the row that has an answer. *)
Definition detail_boxes (df : DataFrame) (row_data : Series) : M unit :=
  for_ (columns df) (λ col_name,
    if decide (col_name = "Row_ID") then ret tt
    else
      val ←' or_raise KeyError (getitem row_data (Some col_name));
      if isna val then ret tt
      else say (Box (Str col_name) val)).

(** Lines 114-192. *)
Definition detail_mode (df : DataFrame) (name_col : option string)
    (ui : frontend) : M unit :=
  say (Text "Individual Response Viewer");;'
  say (Text "---");;'
  say (Text "Select Respondent");;'
  s ←' get;
  selected_index ←' selectbox Selectbox_row (index df) (selected_index s)
                      (get_label df name_col) (row_pick ui);
  set_selected_index selected_index;;'
  i ←' or_raise TypeError selected_index;
  row_data ←' or_raise IndexError (iloc df i);
  val ←' or_raise KeyError (getitem row_data name_col);
  say (Heading_name val);;'
  say (Text "divider");;'
  say (Text "style");;'
  detail_boxes df row_data.

(** Lines 246-259: one box per row that has an answer to the question. *)
Definition question_boxes (df : DataFrame) (name_col : option string)
    (selected_question : option string) : M unit :=
  for_ (iterrows df) (λ row,
    name_val ←' or_raise KeyError (getitem row name_col);
    answer_val ←' or_raise KeyError (getitem row selected_question);
    if isna answer_val then ret tt
    else say (Box name_val answer_val)).

(** Line 203. *)
Definition available_cols (df : DataFrame) : list string :=
  List.filter (λ c, negb (bool_decide (c = "Row_ID"))) (columns df).

(** Lines 195-259. *)
Definition question_analysis_mode (df : DataFrame) (name_col : option string)
    (ui : frontend) : M unit :=
  say (Text "Question Analysis Viewer");;'
  say (Text "---");;'
  say (Text "Select Question");;'
  selected_question ←' selectbox Selectbox_question (available_cols df)
                         (Some 0) (λ _, ret tt) (question_pick ui);
  say (Heading_question selected_question);;'
  say (Text "divider");;'
  say (Text "style");;'
  question_boxes df name_col selected_question.

(** Lines 56-259: the page once [read_csv] has returned a table. *)
Definition explore (parsed : DataFrame) (ui : frontend) : M unit :=
  df ←' or_raise ValueError (add_row_id parsed);
  say (Text "2. Configuration");;'
  default_name_index ←' or_raise KeyError (default_name_index df);
  name_col ←' selectbox Selectbox_name (columns df)
                (Some (Z.of_nat default_name_index)) (λ _, ret tt)
                (name_pick ui);
  view_mode ←' navigation;
  match view_mode with
  | Overview => overview_mode df
  | Detail => detail_mode df name_col ui
  | Question => question_analysis_mode df name_col ui
  end.

(** Lines 46-54: a table, or the error box and the end of the run. *)
Definition data_loading (parsed : option DataFrame) (ui : frontend) : M unit :=
  match parsed with
  | Some df => explore df ui
  | None => say Error_box
  end.

(** [main], lines 16-259. *)
Definition main (uploaded_file : upload) (ui : frontend) : M unit :=
  say (Text "Survey Response Explorer");;'
  say (Text "Upload your CSV file to analyze responses.");;'
  say (Text "1. Data Source");;'
  match uploaded_file with
  | File parsed => data_loading parsed ui
  | Example parsed =>
      say (Text "Please upload a CSV file in the sidebar to get started.");;'
      say (Text "---");;'
      say (Text "Don't have a file handy?");;'
      data_loading parsed ui
  | NoFile =>
      say (Text "Please upload a CSV file in the sidebar to get started.");;'
      say (Text "---");;'
      say (Text "Don't have a file handy?")
  end.

(** One run of the script on a session, from an empty page, and what
    Streamlit does to the session when the script has finished. *)
Definition run (uploaded_file : upload) (ui : frontend) (s : session_state)
    : outcome unit :=
  on_script_finished (main uploaded_file ui {| ss := s; trace := [] |}).

End Vis.

(** ** Vocabulary of the specification *)

Module Spec.
Import Pd St Vis.

(** A column name contains "name" when some stretch of it reads "name" up
    to the case of its letters. *)
Definition name_like (col : string) : Prop :=
  ∃ before mid after, col = before +:+ mid +:+ after ∧ Py.lower mid = "name".

(** The column the identifier dropdown shows as long as the user has not
    picked another one (line 68 with the index of line 66). *)
Definition default_identifier (df : DataFrame) : option string :=
  i ← default_name_index df;
  selectbox_value (columns df) (Some (Z.of_nat i)) None.

(** The row of a click in the overview grid that the run has yet to
    handle, if there is one. *)
Definition pending_click (s : session_state) : option Z :=
  grid ← response_grid s; sel ← selection grid; clicked ← rows sel;
  head clicked.

(** The selection once a pending click is taken into account. *)
Definition mode_after (s : session_state) : view_mode :=
  match pending_click s with
  | Some _ => Detail
  | None => default Overview (view_mode_selector s)
  end.

Definition index_after (s : session_state) : option Z :=
  match pending_click s with
  | Some i => Some i
  | None => selected_index s
  end.

(** The widgets that show the selection: the view-mode radio and the row
    dropdown. *)
Definition is_selection_widget (a : action) : bool :=
  match a with Radio _ | Selectbox_row _ => true | _ => false end.

Definition is_view_mode_write (a : action) : bool :=
  match a with Write_view_mode _ => true | _ => false end.

(** The cells of the column with the given label, top to bottom. *)
Definition column_values (df : DataFrame) (label : string)
    : option (list scalar) :=
  j ← get_loc label (columns df); mapM (λ row, row !! j) (values df).

(** The boxes of the detail view for one row: a box for every column in
    column order, except the column "Row_ID" and the columns where the
    row has no answer. *)
Definition detail_spec (cols : list string) (row : list scalar)
    : list action :=
  (λ p, Box (Str p.1) p.2) <$>
    filter (λ p, p.1 ≠ "Row_ID" ∧ p.2 ≠ NaN) (zip cols row).

(** The boxes of the question view: for every row in row order, one box
    with the cell of the identifier column (position [jn]) and the cell
    of the question (position [jq]) when the latter has an answer, and
    none otherwise. *)
Definition cell_at (j : nat) (row : list scalar) : scalar :=
  default NaN (row !! j).

Definition question_spec (jn jq : nat) (rows : list (list scalar))
    : list action :=
  rows ≫= λ row,
    if decide (cell_at jq row = NaN) then []
    else [Box (cell_at jn row) (cell_at jq row)].

Definition is_box (a : action) : bool :=
  match a with Box _ _ => true | _ => false end.

(** The detail page for the row at position [r], the row dropdown having
    been built on [index]: fixed text, the dropdown, the position stored
    back, the heading with the cell [v] of the identifier column, and the
    boxes. *)
Definition detail_page (index : option Z) (r : Z) (v : scalar)
    (boxes : list action) : list action :=
  [Text "Individual Response Viewer"; Text "---"; Text "Select Respondent";
   Selectbox_row index; Write_selected_index (Some r);
   Heading_name v; Text "divider"; Text "style"] ++ boxes.

(** The question page for the question [q]. *)
Definition question_page (q : string) (boxes : list action) : list action :=
  [Text "Question Analysis Viewer"; Text "---"; Text "Select Question";
   Selectbox_question (Some 0); Heading_question (Some q);
   Text "divider"; Text "style"] ++ boxes.

(** What handling a pending click does to the session and to the record
    of the run. *)
Definition apply_click (s : session_state) : session_state :=
  match pending_click s with
  | Some i => with_view_mode Detail (with_selected_index (Some i) s)
  | None => s
  end.

Definition click_writes (s : session_state) : list action :=
  match pending_click s with
  | Some i => [Write_selected_index (Some i); Write_view_mode Detail]
  | None => []
  end.

(** The record of a run up to the views: the head of the page, the
    identifier dropdown built on [idx], the click of the overview, the
    view-mode radio. *)
Definition page_head : list action :=
  [Text "Survey Response Explorer";
   Text "Upload your CSV file to analyze responses.";
   Text "1. Data Source"].

Definition no_file_note : list action :=
  [Text "Please upload a CSV file in the sidebar to get started.";
   Text "---"; Text "Don't have a file handy?"].

Definition navigation_record (idx : nat) (s : session_state) : list action :=
  [Text "2. Configuration"; Selectbox_name (Some (Z.of_nat idx))] ++
  click_writes s ++ [Text "3. View Mode"; Radio (mode_after s)].

(** Neither a selection widget nor an assignment to the view mode. *)
Definition quiet (a : action) : Prop :=
  is_selection_widget a = false ∧ is_view_mode_write a = false.

(** The loader returns a table. *)
Definition succeeds_load (parsed : DataFrame) : Prop :=
  is_Some (add_row_id parsed).

(** The world in which a view starts. *)
Definition at_view (idx : nat) (w : world) : world :=
  {| ss := with_view_mode (mode_after (ss w)) (apply_click (ss w));
     trace := trace w ++ navigation_record idx (ss w) |}.

(** The outcome of a run with more on the page before it. *)
Definition prepend {A} (t : list action) (o : outcome A) : outcome A :=
  match o with
  | Ok a w => Ok a {| ss := ss w; trace := t ++ trace w |}
  | Raise e w => Raise e {| ss := ss w; trace := t ++ trace w |}
  end.

(** The computation does not look at what is on the page before it, as
    long as that has no view-mode radio in it. *)
Definition framed {A} (m : M A) : Prop :=
  ∀ s t t1, existsb is_radio t = false →
    m {| ss := s; trace := t ++ t1 |}
    = prepend t (m {| ss := s; trace := t1 |}).

(** What a view may add to the record of a run that entered it with the
    row position [idx] in the session: no assignment to the view mode, no
    radio, and a row dropdown only on [idx]. *)
Definition view_action (idx : option Z) (a : action) : Prop :=
  is_radio a = false ∧ is_view_mode_write a = false ∧
  ∀ idx', a = Selectbox_row idx' → idx' = idx.

End Spec.

(** * Properties *)

(** ** Strings *)

Section strings.

#[local] Arguments String.append !_ _ / : simpl nomatch.

Lemma startswith_app (s p : string) :
  Py.startswith s p = true ↔ ∃ rest, s = p +:+ rest.
Proof.
  revert s. induction p as [|c p IH]; intros s; simpl.
  - split; [intros _; by exists s | done].
  - destruct s as [|d s].
    + split; [done | intros [rest ?]; discriminate].
    + destruct (Ascii.eqb_spec c d) as [->|Hne].
      * rewrite IH. split.
        -- intros [rest ->]. by exists rest.
        -- intros [rest Heq]. simpl in Heq. exists rest. congruence.
      * split; [done | intros [rest ?]; congruence].
Qed.

(** The [in] operator finds exactly the substrings. *)
Lemma contains_spec (needle hay : string) :
  Py.contains needle hay = true ↔
  ∃ before after, hay = before +:+ needle +:+ after.
Proof.
  induction hay as [|c hay IH]; simpl.
  - destruct (Py.startswith "" needle) eqn:Hp.
    + apply startswith_app in Hp as [rest Hrest].
      split; [intros _; by exists "", rest | done].
    + split; [done|]. intros ([|? before] & after & Heq); simpl in Heq.
      * assert (Py.startswith "" needle = true) as Hp'
          by (apply startswith_app; eauto).
        congruence.
      * discriminate.
  - destruct (Py.startswith (String c hay) needle) eqn:Hp.
    + apply startswith_app in Hp as [rest Hrest].
      split; [intros _; by exists "", rest | done].
    + rewrite IH. split.
      * intros (before & after & ->). by exists (String c before), after.
      * intros ([|d before] & after & Heq); simpl in Heq.
        -- assert (Py.startswith (String c hay) needle = true) as Hp'
             by (apply startswith_app; eauto).
           congruence.
        -- injection Heq as -> ->. by exists before, after.
Qed.

Lemma lower_app (a b : string) :
  Py.lower (a +:+ b) = Py.lower a +:+ Py.lower b.
Proof. induction a as [|c a IH]; simpl; [done | by rewrite IH]. Qed.

Lemma lower_split (s x y : string) :
  Py.lower s = x +:+ y →
  ∃ a b, s = a +:+ b ∧ Py.lower a = x ∧ Py.lower b = y.
Proof.
  revert s. induction x as [|c x IH]; intros s Heq; simpl in Heq.
  - by exists "", s.
  - destruct s as [|d s]; simpl in Heq; [discriminate|].
    injection Heq as Hc Hs.
    destruct (IH _ Hs) as (a & b & -> & Ha & Hb).
    exists (String d a), b. simpl. by rewrite Hc, Ha.
Qed.

End strings.

Lemma name_like_spec (col : string) :
  Py.contains "name" (Py.lower col) = true ↔ Spec.name_like col.
Proof.
  rewrite contains_spec. split.
  - intros (x & y & Heq).
    apply lower_split in Heq as (before & rest & -> & _ & Heq).
    apply lower_split in Heq as (mid & after & -> & Hmid & _).
    by exists before, mid, after.
  - intros (before & mid & after & -> & Hmid).
    exists (Py.lower before), (Py.lower after).
    by rewrite !lower_app, Hmid.
Qed.

(** ** The identifier column offered by default *)

Section identifier_column.
Import Pd St Vis Spec.

Lemma filter_skip {A} (f : A → bool) (before : list A) (rest : list A) :
  Forall (λ b, f b = false) before →
  List.filter f (before ++ rest) = List.filter f rest.
Proof.
  induction 1 as [|b before Hb _ IH]; simpl; [done|]. by rewrite Hb.
Qed.

Lemma get_loc_app (c : string) (before after : list string) :
  c ∉ before → get_loc c (before ++ c :: after) = Some (length before).
Proof.
  unfold get_loc. induction before as [|b before IH]; intros Hnotin; simpl.
  - by rewrite decide_True.
  - apply not_elem_of_cons in Hnotin as [Hne Hnotin].
    rewrite decide_False by done.
    specialize (IH Hnotin).
    destruct (list_find _ (before ++ c :: after)) as [[i x]|]; simpl in *;
      congruence.
Qed.

Lemma not_name_like_filter (l : list string) :
  Forall (λ b, ¬ name_like b) l →
  Forall (λ b, Py.contains "name" (Py.lower b) = false) l.
Proof.
  intros Hl. eapply Forall_impl; [exact Hl|]. intros b Hb. simpl.
  destruct (Py.contains "name" (Py.lower b)) eqn:Heq; [|done].
  by apply name_like_spec in Heq.
Qed.

Lemma default_identifier_first (df : DataFrame) before c after :
  columns df = before ++ c :: after →
  Forall (λ b, ¬ name_like b) before →
  name_like c →
  default_identifier df = Some c.
Proof.
  intros Hcols Hbefore Hc.
  assert (c ∉ before) as Hnotin.
  { intros Hin. by eapply Forall_forall in Hbefore; [|exact Hin]. }
  unfold default_identifier, default_name_index, possible_names.
  rewrite Hcols, filter_skip by by apply not_name_like_filter.
  simpl. apply name_like_spec in Hc. rewrite Hc.
  rewrite get_loc_app by done. simpl.
  unfold selectbox_value. simpl.
  rewrite Nat2Z.id. by rewrite list_lookup_middle.
Qed.

Lemma default_identifier_none (df : DataFrame) :
  Forall (λ c, ¬ name_like c) (columns df) →
  default_identifier df = head (columns df).
Proof.
  intros Hall.
  unfold default_identifier, default_name_index, possible_names.
  rewrite <- (app_nil_r (columns df)) at 1.
  rewrite filter_skip by by apply not_name_like_filter.
  simpl. unfold selectbox_value. simpl. by destruct (columns df).
Qed.

Lemma default_identifier_name_like (df : DataFrame) c :
  c ∈ columns df → name_like c →
  ∃ d, default_identifier df = Some d ∧ name_like d.
Proof.
  intros Hin Hc.
  assert (Exists name_like (columns df)) as Hex
    by (apply Exists_exists; eauto).
  assert (∀ x, Decision (name_like x)) as Hdec.
  { intros x. destruct (Py.contains "name" (Py.lower x)) eqn:Heq.
    - left. by apply name_like_spec.
    - right. intros Hx. apply name_like_spec in Hx. congruence. }
  clear Hin Hc c.
  assert (∃ before d after, columns df = before ++ d :: after ∧
            Forall (λ b, ¬ name_like b) before ∧ name_like d)
    as (before & d & after & Hcols & Hbefore & Hd).
  { induction Hex as [c l Hc|c l _ IH].
    - by exists [], c, l.
    - destruct (Hdec c) as [Hc|Hc].
      + by exists [], c, l.
      + destruct IH as (before & d & after & -> & Hbefore & Hd).
        exists (c :: before), d, after. split_and!; [done| |done].
        by constructor. }
  exists d. split; [|done]. by eapply default_identifier_first.
Qed.

Lemma name_like_Name : name_like "Name".
Proof. by apply name_like_spec. Qed.

Lemma not_name_like_ID : ¬ name_like "ID".
Proof. intros H. by apply name_like_spec in H. Qed.

(** C8.  The identifier dropdown opens on the first column whose name
    contains "name" in any mix of cases, and on the first column when no
    column name does.  A column "Name" is such a column and "ID" is not:
    with "Name" in the table the default is never "ID", and it is "Name"
    itself unless an earlier column name also contains "name". *)
Theorem default_identifier_choice (df : DataFrame) :
  (∀ before c after,
      columns df = before ++ c :: after →
      Forall (λ b, ¬ name_like b) before → name_like c →
      default_identifier df = Some c) ∧
  (Forall (λ c, ¬ name_like c) (columns df) →
      default_identifier df = head (columns df)) ∧
  (∀ before after,
      columns df = before ++ "Name" :: after →
      Forall (λ b, ¬ name_like b) before →
      default_identifier df = Some "Name") ∧
  ("Name" ∈ columns df → default_identifier df ≠ Some "ID").
Proof.
  split_and!.
  - intros. by eapply default_identifier_first.
  - apply default_identifier_none.
  - intros before after Hcols Hbefore.
    eapply default_identifier_first; [done..|]. apply name_like_Name.
  - intros Hin Heq.
    destruct (default_identifier_name_like df "Name" Hin name_like_Name)
      as (d & Hd & Hlike).
    rewrite Heq in Hd. injection Hd as <-. by apply not_name_like_ID.
Qed.

End identifier_column.

(** ** The table loader: the virtual index column *)

Section table_loader.
Import Pd St Vis Spec.

Lemma rename_absent (old new : string) (cols : list string) :
  old ∉ cols → (λ c, if decide (c = old) then new else c) <$> cols = cols.
Proof.
  induction cols as [|c cols IH]; intros Hnotin; [done|].
  apply not_elem_of_cons in Hnotin as [Hne Hnotin].
  rewrite fmap_cons, decide_False by done. by rewrite IH.
Qed.

Lemma rename_nodup (old new : string) (cols : list string) :
  new ∉ cols → NoDup cols →
  NoDup ((λ c, if decide (c = old) then new else c) <$> cols).
Proof.
  intros Hnew Hnd. apply NoDup_fmap_2_strong; [|done].
  intros a b Ha Hb. repeat case_decide; intros Heq; subst; try done.
Qed.

Lemma rename_elem_of (old new x : string) (cols : list string) :
  x ≠ new → x ∉ cols →
  x ∉ (λ c, if decide (c = old) then new else c) <$> cols.
Proof.
  intros Hne Hnotin (c & Heq & Hin)%list_elem_of_fmap.
  case_decide; subst; done.
Qed.

Lemma nrows_insert_index (name : string) (df : DataFrame) :
  nrows (insert_index name df) = nrows df.
Proof. unfold nrows. simpl. by rewrite length_imap. Qed.

Lemma add_row_id_present (df : DataFrame) :
  "Row_ID" ∈ columns df → add_row_id df = Some df.
Proof. intros Hin. unfold add_row_id. by rewrite decide_False by auto. Qed.

Lemma add_row_id_fresh (df : DataFrame) :
  "Row_ID" ∉ columns df → "index" ∉ columns df →
  add_row_id df = Some (insert_index "Row_ID" df).
Proof.
  intros Hrow Hidx. unfold add_row_id, reset_index.
  rewrite decide_True by done.
  rewrite (decide_False (P := "index" ∈ columns df)) by done.
  rewrite decide_False by done. simpl. f_equal.
  unfold rename, insert_index. simpl. by rewrite rename_absent.
Qed.

Lemma add_row_id_nrows (df df' : DataFrame) :
  add_row_id df = Some df' → nrows df' = nrows df.
Proof.
  unfold add_row_id, reset_index. intros H.
  repeat case_decide; simplify_eq/=; try done;
    unfold nrows; simpl; by rewrite length_imap.
Qed.

Lemma rect_insert_index (rows : list (list scalar)) (n : nat) :
  Forall (λ row : list scalar, length row = n) rows →
  Forall (λ row : list scalar, length row = S n)
    (imap (λ i row, Int (Z.of_nat i) :: row) rows).
Proof.
  rewrite !Forall_lookup. intros Hall i row. rewrite list_lookup_imap.
  destruct (rows !! i) as [r|] eqn:Hr; intros; simplify_eq/=.
  f_equal. by eapply Hall.
Qed.

(** The loader keeps the table well formed. *)
Lemma add_row_id_wf (df df' : DataFrame) :
  wf df → add_row_id df = Some df' → wf df'.
Proof.
  intros [Hnd Hrect] H. unfold add_row_id, reset_index in H.
  repeat case_decide; simplify_eq/=; try done.
  - split; simpl.
    + constructor.
      * apply rename_elem_of; done.
      * apply rename_nodup; done.
    + rewrite length_fmap. by apply rect_insert_index.
  - split; simpl.
    + rewrite rename_absent by done. by constructor.
    + rewrite rename_absent by done. by apply rect_insert_index.
Qed.

Lemma add_row_id_columns_nonempty (df df' : DataFrame) :
  add_row_id df = Some df' → columns df' ≠ [].
Proof.
  unfold add_row_id, reset_index. intros H.
  repeat case_decide; simplify_eq/=; try done.
  intros Heq. rewrite Heq in *. by apply not_elem_of_nil in H0.
Qed.

Lemma mapM_head_imap (rows : list (list scalar)) (k : nat) :
  mapM (λ row : list scalar, row !! 0%nat)
    (imap (λ i row, Int (Z.of_nat (k + i)) :: row) rows)
  = Some ((λ i, Int (Z.of_nat i)) <$> seq k (length rows)).
Proof.
  revert k. induction rows as [|row rows IH]; intros k; [done|].
  rewrite imap_cons. cbn [mapM]. simpl.
  rewrite (imap_ext _ (λ i row, Int (Z.of_nat (S k + i)) :: row)).
  - rewrite IH. simpl. by rewrite Nat.add_0_r.
  - intros i x _. simpl. do 3 f_equal. lia.
Qed.

(** Where the table has neither a column "Row_ID" nor a column "index",
    the added column is "Row_ID" and holds 0 .. N-1. *)
Lemma add_row_id_fresh_values (df : DataFrame) :
  "Row_ID" ∉ columns df → "index" ∉ columns df →
  ∃ df', add_row_id df = Some df' ∧
         columns df' = "Row_ID" :: columns df ∧
         column_values df' "Row_ID"
           = Some ((λ i, Int (Z.of_nat i)) <$> seq 0 (nrows df)).
Proof.
  intros Hrow Hidx. eexists. split; [by apply add_row_id_fresh|].
  split; [done|]. unfold column_values, get_loc. simpl.
  apply (mapM_head_imap (values df) 0).
Qed.

End table_loader.

Section loading_structure.
Import Pd St Vis Spec.

(** C6, as stated, fails: loading a table that has the one column "Name"
    gives a table with the columns "Row_ID" and "Name". *)
Lemma loading_changes_columns :
  let source := {| columns := ["Name"]; values := [[Str "Ann"]] |} in
  ¬ ∃ df, add_row_id source = Some df ∧
          columns df = columns source ∧ nrows df = nrows source.
Proof.
  intros source (df & Hload & Hcols & _).
  vm_compute in Hload. injection Hload as <-. discriminate Hcols.
Qed.

(** C6, amended.  Loading keeps the number of rows.  The column names
    read back are those of the source when the source has a column
    "Row_ID", and otherwise, for a source without a column "index",
    those of the source in their order after the one added column
    "Row_ID". *)
Theorem loading_structure (source : DataFrame) :
  (∀ df, add_row_id source = Some df → nrows df = nrows source) ∧
  ("Row_ID" ∈ columns source → add_row_id source = Some source) ∧
  ("Row_ID" ∉ columns source → "index" ∉ columns source →
     ∃ df, add_row_id source = Some df ∧
           columns df = "Row_ID" :: columns source ∧
           nrows df = nrows source).
Proof.
  split_and!.
  - intros df. apply add_row_id_nrows.
  - apply add_row_id_present.
  - intros Hrow Hidx. eexists. split; [by apply add_row_id_fresh|].
    split; [done|]. apply nrows_insert_index.
Qed.

Lemma loading_structure_witness :
  let source := {| columns := ["Name"; "Score"];
                   values := [[Str "Ann"; Int 3]; [Str "Bob"; NaN]] |} in
  ∃ df, add_row_id source = Some df ∧
        columns df = ["Row_ID"; "Name"; "Score"] ∧ nrows df = 2%nat.
Proof.
  intros source.
  apply (proj2 (proj2 (loading_structure source)));
    by apply (bool_decide_unpack _).
Defined.

(** C7 at a table that has a column "index" and no column "Row_ID": the
    column of row numbers is added under the name "level_0", and the
    column that ends up named "Row_ID" is the "index" column of the file,
    so it holds the data of the file and not 0 .. N-1. *)
Theorem row_id_on_index_column :
  let source := {| columns := ["index"; "Name"];
                   values := [[Int 7; Str "Ann"]; [Int 9; Str "Bob"]] |} in
  let loaded := {| columns := ["level_0"; "Row_ID"; "Name"];
                   values := [[Int 0; Int 7; Str "Ann"];
                              [Int 1; Int 9; Str "Bob"]] |} in
  wf source ∧ ("Row_ID" ∉ columns source) ∧
  add_row_id source = Some loaded ∧
  column_values loaded "Row_ID" = Some [Int 7; Int 9] ∧
  column_values loaded "level_0" = Some [Int 0; Int 1].
Proof.
  intros source loaded. split_and!; try done.
  - split; simpl.
    + by apply (bool_decide_unpack _).
    + by repeat constructor.
  - by apply (bool_decide_unpack _).
Qed.

(** With both a column "index" and a column "level_0" in the file the
    loader raises: [explore] stops with [ValueError], outside the [try] of
    lines 46-54. *)
Example row_id_on_index_and_level_0 :
  add_row_id {| columns := ["index"; "level_0"];
                values := [[Int 7; Int 8]] |} = None.
Proof. reflexivity. Qed.

End loading_structure.

(** ** Runs of the script: what a computation adds to the record *)

Section emits.
Import Pd St.
Context {P : action → Prop}.

Lemma emits_at_bind {A B} (m : M A) (k : A → M B) (w : world) :
  emits_at P m w →
  (∀ a w', m w = Ok a w' → emits_at P (k a) w') →
  emits_at P (bind m k) w.
Proof.
  intros (l1 & Hl1 & HP1) Hk. unfold emits_at, bind.
  destruct (m w) as [a w'|e w'] eqn:Hm; simpl in *.
  - destruct (Hk a w' eq_refl) as (l2 & Hl2 & HP2).
    exists (l1 ++ l2). rewrite Hl2, Hl1, (assoc_L (++)).
    split; [done|]. by apply Forall_app.
  - by exists l1.
Qed.

Lemma emits_bind {A B} (m : M A) (k : A → M B) :
  emits P m → (∀ a, emits P (k a)) → emits P (bind m k).
Proof. intros Hm Hk w. apply emits_at_bind; [apply Hm|]. intros. apply Hk. Qed.

Lemma emits_ret {A} (a : A) : emits P (ret a).
Proof. intros w. exists []. by rewrite app_nil_r. Qed.

Lemma emits_raise {A} (e : exn) : emits P (raise (A := A) e).
Proof. intros w. exists []. by rewrite app_nil_r. Qed.

Lemma emits_or_raise {A} (e : exn) (o : option A) : emits P (or_raise e o).
Proof. destruct o; [apply emits_ret | apply emits_raise]. Qed.

Lemma emits_get : emits P get.
Proof. intros w. exists []. by rewrite app_nil_r. Qed.

Lemma emits_say (a : action) : P a → emits P (say a).
Proof. intros Ha w. exists [a]. split; [done|]. by constructor. Qed.

Lemma emits_for {A} (l : list A) (body : A → M unit) :
  (∀ x, emits P (body x)) → emits P (for_ l body).
Proof.
  intros Hbody. induction l as [|x l IH]; simpl.
  - apply emits_ret.
  - apply emits_bind; [apply Hbody | by intros _].
Qed.

Lemma emits_set_selected_index (v : option Z) :
  P (Write_selected_index v) → emits P (set_selected_index v).
Proof. intros Ha w. exists [Write_selected_index v]. split; [done|]. by constructor. Qed.

Lemma emits_set_view_mode_selector (m : view_mode) :
  P (Write_view_mode m) → emits P (set_view_mode_selector m).
Proof.
  intros Ha w. unfold emits_at, set_view_mode_selector.
  destruct (existsb is_radio (trace w)); simpl.
  - exists []. by rewrite app_nil_r.
  - exists [Write_view_mode m]. split; [done|]. by constructor.
Qed.

Lemma emits_radio : (∀ m, P (Radio m)) → emits P radio.
Proof. intros Ha w. eexists [_]. split; [done|]. by constructor. Qed.

Lemma emits_dataframe : P Grid → emits P dataframe.
Proof. intros Ha w. exists [Grid]. split; [done|]. by constructor. Qed.

Lemma emits_selectbox {A} (widget : option Z → action) (options : list A)
    (index : option Z) (format_func : A → M unit) (picked : option nat) :
  P (widget index) → (∀ x, emits P (format_func x)) →
  emits P (selectbox widget options index format_func picked).
Proof.
  intros Ha Hf. unfold selectbox.
  destruct (index_refused options index); [apply emits_raise|].
  apply emits_bind; [by apply emits_for|]. intros _.
  apply emits_bind; [by apply emits_say|]. intros _. apply emits_ret.
Qed.

End emits.

(** The rules above, applied as far as they go. *)
Ltac emits_step :=
  lazymatch goal with
  | |- St.emits _ (St.bind _ _) => apply emits_bind; [|intros ?]
  | |- St.emits _ (St.ret _) => apply emits_ret
  | |- St.emits _ (St.raise _) => apply emits_raise
  | |- St.emits _ (St.or_raise _ _) => apply emits_or_raise
  | |- St.emits _ St.get => apply emits_get
  | |- St.emits _ (St.say _) => apply emits_say
  | |- St.emits _ (St.for_ _ _) => apply emits_for; intros ?
  | |- St.emits _ (St.set_selected_index _) => apply emits_set_selected_index
  | |- St.emits _ (St.set_view_mode_selector _) => apply emits_set_view_mode_selector
  | |- St.emits _ St.radio => apply emits_radio; intros ?
  | |- St.emits _ St.dataframe => apply emits_dataframe
  | |- St.emits _ (St.selectbox _ _ _ _ _) => apply emits_selectbox; [|intros ?]
  | |- St.emits _ (match ?x with _ => _ end) => destruct x
  | |- St.emits _ (if ?x then _ else _) => destruct x
  end.

(** ** Rows and labels *)

Section frames.
Import Pd St Vis Spec.

Lemma getitem_middle (a b : Series) (c : string) (v : scalar) :
  c ∉ a.*1 → getitem (a ++ (c, v) :: b) (Some c) = Some v.
Proof.
  unfold getitem. simpl. induction a as [|[d x] a IH]; intros Hnotin; simpl.
  - by rewrite decide_True.
  - rewrite fmap_cons in Hnotin.
    apply not_elem_of_cons in Hnotin as [Hne Hnotin].
    rewrite decide_False by (intros ?; by simplify_eq/=).
    specialize (IH Hnotin).
    destruct (list_find _ (a ++ (c, v) :: b)) as [[i y]|]; simpl in *;
      congruence.
Qed.

Lemma getitem_zip (cols : list string) (row : list scalar) (j : nat)
    (c : string) :
  NoDup cols → length row = length cols → cols !! j = Some c →
  getitem (zip cols row) (Some c) = row !! j.
Proof.
  intros Hnd Hlen Hj.
  destruct (lookup_lt_is_Some_2 row j) as [v Hv].
  { rewrite Hlen. by eapply lookup_lt_Some. }
  rewrite Hv.
  rewrite <- (take_drop_middle cols j c Hj), <- (take_drop_middle row j v Hv).
  rewrite zip_with_app by (rewrite !length_take; lia).
  simpl. apply getitem_middle.
  rewrite fst_zip by (rewrite !length_take; lia).
  rewrite <- (take_drop_middle cols j c Hj) in Hnd.
  apply NoDup_app in Hnd as (_ & Hdisj & _).
  intros Hin. eapply Hdisj; [exact Hin|]. by left.
Qed.

Lemma getitem_zip_cell (cols : list string) (row : list scalar) (j : nat)
    (c : string) :
  NoDup cols → length row = length cols → cols !! j = Some c →
  getitem (zip cols row) (Some c) = Some (cell_at j row).
Proof.
  intros Hnd Hlen Hj. rewrite (getitem_zip cols row j c) by done.
  unfold cell_at.
  destruct (lookup_lt_is_Some_2 row j) as [v ->]; [|done].
  rewrite Hlen. by eapply lookup_lt_Some.
Qed.

Lemma index_lookup (df : DataFrame) (i : Z) :
  0 ≤ i < Z.of_nat (nrows df) → index df !! Z.to_nat i = Some i.
Proof.
  intros Hi. unfold index. rewrite lookup_seqZ. split; lia.
Qed.

Lemma index_length (df : DataFrame) : length (index df) = nrows df.
Proof. unfold index. rewrite length_seqZ. lia. Qed.

Lemma index_elem_of (df : DataFrame) (i : Z) :
  i ∈ index df ↔ 0 ≤ i < Z.of_nat (nrows df).
Proof. unfold index. rewrite elem_of_seqZ. lia. Qed.

Lemma iloc_row (df : DataFrame) (i : Z) :
  0 ≤ i < Z.of_nat (nrows df) →
  ∃ row, values df !! Z.to_nat i = Some row ∧
         iloc df i = Some (zip (columns df) row).
Proof.
  intros Hi. destruct (lookup_lt_is_Some_2 (values df) (Z.to_nat i)) as [row Hrow].
  { unfold nrows in Hi. lia. }
  exists row. split; [done|]. unfold iloc.
  destruct (decide (0 ≤ i)); [|lia].
  rewrite decide_True by lia. by rewrite Hrow.
Qed.

Lemma wf_row (df : DataFrame) (k : nat) (row : list scalar) :
  wf df → values df !! k = Some row → length row = length (columns df).
Proof.
  intros [_ Hrect] Hrow. by eapply (Forall_lookup_1 _ _ _ _ Hrect).
Qed.

End frames.

(** ** The loops of the two renderers *)

Section renderers.
Import Pd St Vis Spec.
#[local] Arguments getitem : simpl never.

Lemma bind_ok {A B} (m : M A) (k : A → M B) (w w' : world) (a : A) :
  m w = Ok a w' → bind m k w = k a w'.
Proof. intros H. unfold bind. by rewrite H. Qed.

Lemma bind_raise {A B} (m : M A) (k : A → M B) (w w' : world) (e : exn) :
  m w = Raise e w' → bind m k w = Raise e w'.
Proof. intros H. unfold bind. by rewrite H. Qed.

Lemma tell_nil (w : world) : tell [] w = w.
Proof. destruct w. unfold tell. simpl. by rewrite app_nil_r. Qed.

Lemma tell_tell (l1 l2 : list action) (w : world) :
  tell l2 (tell l1 w) = tell (l1 ++ l2) w.
Proof. unfold tell. simpl. by rewrite (assoc_L (++)). Qed.

Lemma isna_NaN (v : scalar) : isna v = true ↔ v = NaN.
Proof. by destruct v. Qed.

(** The labels of the row dropdown are there for every row. *)
Lemma labels_ok (df : DataFrame) (c : string) (l : list Z) (w : world) :
  wf df → c ∈ columns df →
  Forall (λ i, 0 ≤ i < Z.of_nat (nrows df)) l →
  for_ l (get_label df (Some c)) w = Ok tt w.
Proof.
  intros Hwf Hc Hl. induction Hl as [|i l Hi _ IH]; [done|].
  simpl. apply list_elem_of_lookup in Hc as [j Hj].
  destruct (iloc_row df i Hi) as (row & Hrow & Hiloc).
  erewrite bind_ok; [exact IH|].
  unfold get_label. rewrite Hiloc. simpl.
  erewrite bind_ok; [|reflexivity].
  rewrite (getitem_zip_cell _ _ j) by eauto using wf_row, wf_nodup.
  done.
Qed.

(** The column loop of the detail view, from any column on. *)
Lemma detail_loop (pre l : list string) (rpre rl : list scalar) (w : world) :
  NoDup (pre ++ l) → length rpre = length pre → length rl = length l →
  for_ l (λ col_name,
    if decide (col_name = "Row_ID") then ret tt
    else
      val ←' or_raise KeyError
               (getitem (zip (pre ++ l) (rpre ++ rl)) (Some col_name));
      if isna val then ret tt
      else say (Box (Str col_name) val)) w
  = Ok tt (tell (detail_spec l rl) w).
Proof.
  revert pre rpre rl w.
  induction l as [|c l IH]; intros pre rpre rl w Hnd Hpre Hl.
  { destruct rl; [|done]. by rewrite tell_nil. }
  destruct rl as [|v rl]; [done|]. simpl in Hl.
  assert (getitem (zip (pre ++ c :: l) (rpre ++ v :: rl)) (Some c) = Some v)
    as Hget.
  { rewrite zip_with_app by done. simpl. apply getitem_middle.
    rewrite fst_zip by lia.
    apply NoDup_app in Hnd as (_ & Hdisj & _).
    intros Hin. eapply Hdisj; [exact Hin|]. by left. }
  specialize (IH (pre ++ [c]) (rpre ++ [v]) rl).
  rewrite <- !(assoc_L (++)) in IH. simpl in IH.
  cbn [for_]. unfold detail_spec. simpl zip_with.
  rewrite filter_cons. simpl.
  assert (∀ w', for_ l (λ col_name,
    if decide (col_name = "Row_ID") then ret tt
    else
      val ←' or_raise KeyError
               (getitem (zip (pre ++ c :: l) (rpre ++ v :: rl)) (Some col_name));
      if isna val then ret tt
      else say (Box (Str col_name) val)) w'
    = Ok tt (tell (detail_spec l rl) w')) as Hrest.
  { intros w'. apply IH; [done| |lia]. rewrite !length_app. simpl. lia. }
  destruct (decide (c = "Row_ID")) as [->|Hc].
  { rewrite decide_False by (by intros [? ?]).
    erewrite bind_ok; [apply Hrest|done]. }
  rewrite Hget.
  destruct v as [|n|s]; simpl.
  - rewrite decide_False by (by intros [? ?]).
    erewrite bind_ok; [apply Hrest|done].
  - rewrite decide_True by done.
    erewrite bind_ok; [|reflexivity]. rewrite Hrest.
    unfold tell. simpl. by rewrite <- (assoc_L (++)).
  - rewrite decide_True by done.
    erewrite bind_ok; [|reflexivity]. rewrite Hrest.
    unfold tell. simpl. by rewrite <- (assoc_L (++)).
Qed.

Lemma detail_boxes_ok (df : DataFrame) (row : list scalar) (w : world) :
  NoDup (columns df) → length row = length (columns df) →
  detail_boxes df (zip (columns df) row) w
  = Ok tt (tell (detail_spec (columns df) row) w).
Proof.
  intros Hnd Hlen. by apply (detail_loop [] (columns df) [] row).
Qed.

(** The row loop of the question view. *)
Lemma question_loop (cols : list string) (rows : list (list scalar))
    (name_col selected_question : string) (jn jq : nat) (w : world) :
  NoDup cols →
  Forall (λ row : list scalar, length row = length cols) rows →
  cols !! jn = Some name_col → cols !! jq = Some selected_question →
  for_ (zip cols <$> rows) (λ row,
    name_val ←' or_raise KeyError (getitem row (Some name_col));
    answer_val ←' or_raise KeyError (getitem row (Some selected_question));
    if isna answer_val then ret tt
    else say (Box name_val answer_val)) w
  = Ok tt (tell (question_spec jn jq rows) w).
Proof.
  intros Hnd Hrect Hjn Hjq. revert w.
  induction Hrect as [|row rows Hrow _ IH]; intros w.
  { by rewrite tell_nil. }
  rewrite fmap_cons. cbn [for_]. unfold question_spec. simpl.
  rewrite !(getitem_zip_cell cols row _ _ Hnd Hrow) by done. simpl.
  destruct (decide (cell_at jq row = NaN)) as [Hna|Hna].
  - erewrite bind_ok; [apply IH|]. unfold bind. simpl. by rewrite Hna.
  - destruct (isna (cell_at jq row)) eqn:Hisna.
    { by apply isna_NaN in Hisna. }
    erewrite bind_ok; [|unfold bind; simpl; by rewrite Hisna].
    etrans; [apply IH|]. unfold tell. simpl. by rewrite <- (assoc_L (++)).
Qed.

End renderers.

(** ** The dropdowns *)

Section dropdowns.
Import Pd St Vis Spec.

Lemma selectbox_ok {A} (widget : option Z → action) (options : list A)
    (index : option Z) (format_func : A → M unit) (picked : option nat)
    (w : world) :
  index_refused options index = false →
  for_ options format_func w = Ok tt w →
  selectbox widget options index format_func picked w
  = Ok (selectbox_value options index picked) (tell [widget index] w).
Proof.
  intros Hidx Hfmt. unfold selectbox. rewrite Hidx.
  erewrite bind_ok; [|exact Hfmt]. done.
Qed.

Lemma selectbox_refused {A} (widget : option Z → action) (options : list A)
    (index : option Z) (format_func : A → M unit) (picked : option nat)
    (w : world) :
  index_refused options index = true →
  selectbox widget options index format_func picked w
  = Raise StreamlitAPIException w.
Proof. intros Hidx. unfold selectbox. by rewrite Hidx. Qed.

Lemma for_ret {A} (l : list A) (w : world) :
  for_ l (λ _, ret tt) w = Ok tt w.
Proof. induction l as [|x l IH]; [done|]. simpl. by erewrite bind_ok. Qed.

Lemma selectbox_value_elem_of {A} (options : list A) (index : option Z)
    (picked : option nat) (v : A) :
  selectbox_value options index picked = Some v → v ∈ options.
Proof.
  unfold selectbox_value.
  destruct (picked ≫= _) as [x|] eqn:Hpick.
  - intros [= <-]. destruct picked as [k|]; [|done]. simpl in Hpick.
    by eapply list_elem_of_lookup_2.
  - destruct index as [i|]; [|done]. simpl.
    apply list_elem_of_lookup_2.
Qed.

Lemma selectbox_value_default {A} (options : list A) (i : Z) :
  selectbox_value options (Some i) None = options !! Z.to_nat i.
Proof. done. Qed.

Lemma index_refused_row (df : DataFrame) (i : Z) :
  index_refused (index df) (Some i)
  = bool_decide (0 < Z.of_nat (nrows df)) &&
    negb (bool_decide (0 ≤ i < Z.of_nat (nrows df))).
Proof.
  unfold index_refused. rewrite index_length. f_equal.
  apply bool_decide_ext. unfold index.
  destruct (nrows df) as [|n]; simpl; [split; [done|lia]|].
  split; [lia|]. intros _ Heq.
  assert (length (seqZ 0 (Z.of_nat (S n))) = 0%nat) as Hlen by by rewrite Heq.
  rewrite length_seqZ in Hlen. lia.
Qed.

Lemma row_dropdown_default (df : DataFrame) (i : Z) :
  0 ≤ i < Z.of_nat (nrows df) →
  selectbox_value (index df) (Some i) None = Some i.
Proof. intros Hi. rewrite selectbox_value_default. by apply index_lookup. Qed.

End dropdowns.

(** ** The detail view *)

Section detail_view.
Import Pd St Vis Spec.
#[local] Arguments getitem : simpl never.

(** With a row position in the session that is a row of the table, the
    detail view renders the row of the dropdown and stores its position. *)
Lemma detail_mode_ok (df : DataFrame) (c : string) (ui : frontend)
    (w : world) (i r : Z) :
  wf df → c ∈ columns df →
  selected_index (ss w) = Some i → 0 ≤ i < Z.of_nat (nrows df) →
  selectbox_value (index df) (Some i) (row_pick ui) = Some r →
  ∃ row v,
    values df !! Z.to_nat r = Some row ∧
    getitem (zip (columns df) row) (Some c) = Some v ∧
    detail_mode df (Some c) ui w
    = Ok tt {| ss := with_selected_index (Some r) (ss w);
               trace := trace w ++
                 detail_page (Some i) r v (detail_spec (columns df) row) |}.
Proof.
  intros Hwf Hc Hsel Hi Hr.
  assert (0 ≤ r < Z.of_nat (nrows df)) as Hrange.
  { apply index_elem_of. by eapply selectbox_value_elem_of. }
  destruct (iloc_row df r Hrange) as (row & Hrow & Hiloc).
  pose proof (wf_row df _ row Hwf Hrow) as Hlen.
  pose proof (wf_nodup df Hwf) as Hnd.
  pose proof Hc as [j Hj]%list_elem_of_lookup.
  exists row, (cell_at j row). split; [done|].
  split; [by apply getitem_zip_cell|].
  unfold detail_mode.
  do 3 (erewrite bind_ok; [|reflexivity]).
  erewrite bind_ok; [|reflexivity]. simpl ss. rewrite Hsel.
  erewrite bind_ok; cycle 1.
  { apply selectbox_ok.
    - rewrite index_refused_row.
      rewrite (bool_decide_eq_true_2 (0 ≤ i < _)) by done.
      by rewrite andb_false_r.
    - apply labels_ok; [done..|].
      apply Forall_forall. intros x. apply index_elem_of. }
  rewrite Hr.
  erewrite bind_ok; [|reflexivity].
  erewrite bind_ok; [|reflexivity].
  rewrite Hiloc. erewrite bind_ok; [|reflexivity].
  rewrite (getitem_zip_cell _ _ j) by done.
  erewrite bind_ok; [|reflexivity].
  do 3 (erewrite bind_ok; [|reflexivity]).
  rewrite detail_boxes_ok by done.
  unfold tell, detail_page. simpl. do 2 f_equal.
  rewrite <- !(assoc_L (++)). done.
Qed.

(** With a row position in the session that is not a row of the table,
    the row dropdown refuses to be built, and the run stops there. *)
Lemma detail_mode_refused (df : DataFrame) (name_col : option string)
    (ui : frontend) (w : world) (i : Z) :
  selected_index (ss w) = Some i →
  (0 < nrows df)%nat → ¬ (0 ≤ i < Z.of_nat (nrows df)) →
  detail_mode df name_col ui w
  = Raise StreamlitAPIException
      (tell [Text "Individual Response Viewer"; Text "---";
             Text "Select Respondent"] w).
Proof.
  intros Hsel Hrows Hi. unfold detail_mode.
  do 3 (erewrite bind_ok; [|reflexivity]).
  erewrite bind_ok; [|reflexivity]. simpl ss. rewrite Hsel.
  erewrite bind_raise; cycle 1.
  { apply selectbox_refused. rewrite index_refused_row.
    rewrite bool_decide_eq_true_2 by lia.
    by rewrite bool_decide_eq_false_2. }
  unfold tell. simpl. by rewrite <- !(assoc_L (++)).
Qed.

(** A table without rows has no row to show. *)
Lemma detail_mode_empty (df : DataFrame) (name_col : option string)
    (ui : frontend) (w : world) :
  nrows df = 0%nat →
  ∃ w', detail_mode df name_col ui w = Raise TypeError w' ∧
        selected_index (ss w') = None ∧
        Forall (λ a, ∀ q v, a ≠ Box q v) (drop (length (trace w)) (trace w')).
Proof.
  intros Hrows. unfold detail_mode.
  assert (index df = []) as Hindex by (unfold index; by rewrite Hrows).
  eexists. split_and!.
  - do 3 (erewrite bind_ok; [|reflexivity]).
    erewrite bind_ok; [|reflexivity]. rewrite Hindex.
    erewrite bind_ok; cycle 1.
    { apply selectbox_ok; [|done]. unfold index_refused.
      by destruct (selected_index _). }
    assert (∀ idx, selectbox_value (A := Z) [] idx (row_pick ui) = None)
      as Hnone.
    { intros idx. unfold selectbox_value.
      destruct (row_pick ui) as [k|], idx as [z|]; done. }
    rewrite Hnone.
    erewrite bind_ok; [|reflexivity].
    erewrite bind_raise; [|reflexivity]. reflexivity.
  - done.
  - simpl. rewrite <- !(assoc_L (++)). rewrite drop_app_length.
    by repeat constructor.
Qed.

End detail_view.

(** ** Navigation: the click of the overview and the view-mode radio *)

Section navigation.
Import Pd St Vis Spec.

Lemma existsb_is_radio_app (t l : list action) :
  existsb is_radio (t ++ l) = existsb is_radio t || existsb is_radio l.
Proof. apply existsb_app. Qed.

Lemma handle_selection_run (w : world) :
  existsb is_radio (trace w) = false →
  handle_selection w
  = Ok tt {| ss := apply_click (ss w);
             trace := trace w ++ click_writes (ss w) |}.
Proof.
  intros Hradio. unfold handle_selection, apply_click, click_writes,
    pending_click.
  erewrite bind_ok; [|reflexivity].
  destruct (response_grid (ss w)) as [[[[[[|i clicked]|]]|]]|]; simpl;
    try (destruct w; simpl; by rewrite app_nil_r).
  erewrite bind_ok; [|reflexivity].
  unfold set_view_mode_selector. simpl.
  rewrite existsb_is_radio_app, Hradio. simpl.
  by rewrite <- (assoc_L (++)).
Qed.

Lemma existsb_is_radio_click_writes (s : session_state) :
  existsb is_radio (click_writes s) = false.
Proof. unfold click_writes. by destruct (pending_click s). Qed.

Lemma view_mode_apply_click (s : session_state) :
  default Overview (view_mode_selector (apply_click s)) = mode_after s.
Proof. unfold apply_click, mode_after. by destruct (pending_click s). Qed.

Lemma selected_index_apply_click (s : session_state) :
  selected_index (apply_click s) = index_after s.
Proof. unfold apply_click, index_after. by destruct (pending_click s). Qed.

(** Lines 75-91 as a whole. *)
Lemma navigation_run (w : world) :
  existsb is_radio (trace w) = false →
  navigation w
  = Ok (mode_after (ss w))
      {| ss := with_view_mode (mode_after (ss w)) (apply_click (ss w));
         trace := trace w ++ click_writes (ss w) ++
                  [Text "3. View Mode"; Radio (mode_after (ss w))] |}.
Proof.
  intros Hradio. unfold navigation.
  erewrite bind_ok; [|by apply handle_selection_run].
  erewrite bind_ok; [|reflexivity].
  unfold radio. simpl. rewrite view_mode_apply_click.
  by rewrite <- !(assoc_L (++)).
Qed.

Lemma default_name_index_some (df : DataFrame) :
  ∃ i, default_name_index df = Some i ∧
       (columns df ≠ [] → (i < length (columns df))%nat).
Proof.
  unfold default_name_index, possible_names.
  destruct (List.filter _ (columns df)) as [|first rest] eqn:Hfilter.
  - exists 0%nat. split; [done|]. destruct (columns df); [done|simpl; lia].
  - assert (first ∈ columns df) as Hin.
    { apply list_elem_of_In.
      eapply (proj1 (filter_In _ _ _)). rewrite Hfilter. by left. }
    unfold get_loc.
    destruct (list_find (λ c, c = first) (columns df)) as [[i x]|] eqn:Hfind.
    + exists i. split; [done|]. intros _.
      apply list_find_Some in Hfind as (Hi & _). by eapply lookup_lt_Some.
    + apply list_find_None in Hfind.
      by eapply Forall_forall in Hfind.
Qed.

End navigation.

(** ** Computations that leave the session alone *)

Section keeps.
Import Pd St.

Lemma keeps_bind {A B} (m : M A) (k : A → M B) :
  keeps m → (∀ a, keeps (k a)) → keeps (bind m k).
Proof.
  intros Hm Hk w. unfold bind. specialize (Hm w).
  destruct (m w) as [a w'|e w']; simpl in *; [|done].
  by rewrite Hk.
Qed.

Lemma keeps_ret {A} (a : A) : keeps (ret a).
Proof. done. Qed.

Lemma keeps_raise {A} (e : exn) : keeps (raise (A := A) e).
Proof. done. Qed.

Lemma keeps_or_raise {A} (e : exn) (o : option A) : keeps (or_raise e o).
Proof. by destruct o. Qed.

Lemma keeps_say (a : action) : keeps (say a).
Proof. done. Qed.

Lemma keeps_for {A} (l : list A) (body : A → M unit) :
  (∀ x, keeps (body x)) → keeps (for_ l body).
Proof.
  intros Hbody. induction l as [|x l IH]; [done|].
  simpl. apply keeps_bind; [apply Hbody | by intros _].
Qed.

Lemma keeps_selectbox {A} (widget : option Z → action) (options : list A)
    (index : option Z) (format_func : A → M unit) (picked : option nat) :
  (∀ x, keeps (format_func x)) →
  keeps (selectbox widget options index format_func picked).
Proof.
  intros Hf. unfold selectbox.
  destruct (index_refused options index); [done|].
  apply keeps_bind; [by apply keeps_for|]. intros _.
  apply keeps_bind; [apply keeps_say|]. by intros _.
Qed.

End keeps.

Ltac keeps_step :=
  lazymatch goal with
  | |- St.keeps (St.bind _ _) => apply keeps_bind; [|intros ?]
  | |- St.keeps (St.ret _) => apply keeps_ret
  | |- St.keeps (St.raise _) => apply keeps_raise
  | |- St.keeps (St.or_raise _ _) => apply keeps_or_raise
  | |- St.keeps (St.say _) => apply keeps_say
  | |- St.keeps (St.for_ _ _) => apply keeps_for; intros ?
  | |- St.keeps (St.selectbox _ _ _ _ _) => apply keeps_selectbox; intros ?
  | |- St.keeps (match ?x with _ => _ end) => destruct x
  | |- St.keeps (if ?x then _ else _) => destruct x
  end.

(** ** The three views *)

Section views.
Import Pd St Vis Spec.

Lemma keeps_get_label (df : DataFrame) (name_col : option string) (i : Z) :
  keeps (get_label df name_col i).
Proof. unfold get_label. repeat keeps_step. Qed.

Lemma keeps_detail_boxes (df : DataFrame) (row_data : Series) :
  keeps (detail_boxes df row_data).
Proof. unfold detail_boxes. repeat keeps_step. Qed.

(** The overview touches no key of the session but that of its grid. *)
Lemma overview_mode_run (df : DataFrame) (w : world) :
  overview_mode df w
  = Ok tt {| ss := with_response_grid
                     (Some (default empty_selection (response_grid (ss w))))
                     (ss w);
             trace := trace w ++
               [Text "Global Overview"; Text "Response Data Grid";
                Text "Select a row below to jump to their details."; Grid] |}.
Proof.
  unfold overview_mode, bind, say, dataframe. simpl.
  by rewrite <- !(assoc_L (++)).
Qed.

Lemma keeps_question_analysis_mode (df : DataFrame)
    (name_col : option string) (ui : frontend) :
  keeps (question_analysis_mode df name_col ui).
Proof.
  unfold question_analysis_mode, question_boxes. repeat keeps_step.
Qed.

Lemma emits_get_label {P : action → Prop} (df : DataFrame)
    (name_col : option string) (i : Z) :
  emits P (get_label df name_col i).
Proof. unfold get_label. repeat emits_step. Qed.

Lemma emits_overview_mode (idx : option Z) (df : DataFrame) :
  emits (view_action idx) (overview_mode df).
Proof. unfold overview_mode. repeat emits_step; by split_and!. Qed.

Lemma emits_question_analysis_mode (idx : option Z) (df : DataFrame)
    (name_col : option string) (ui : frontend) :
  emits (view_action idx) (question_analysis_mode df name_col ui).
Proof.
  unfold question_analysis_mode, question_boxes.
  repeat emits_step; by split_and!.
Qed.

(** The detail view builds its row dropdown on the row position it finds
    in the session. *)
Lemma emits_detail_mode (df : DataFrame) (name_col : option string)
    (ui : frontend) (w : world) :
  emits_at (view_action (selected_index (ss w)))
    (detail_mode df name_col ui) w.
Proof.
  assert (∀ s : session_state, emits (view_action (selected_index s))
    (say (Text "Individual Response Viewer");;'
     say (Text "---");;'
     say (Text "Select Respondent");;'
     selected_index ←' selectbox Selectbox_row (index df) (selected_index s)
                         (get_label df name_col) (row_pick ui);
     set_selected_index selected_index;;'
     i ←' or_raise TypeError selected_index;
     row_data ←' or_raise IndexError (iloc df i);
     val ←' or_raise KeyError (getitem row_data name_col);
     say (Heading_name val);;'
     say (Text "divider");;'
     say (Text "style");;'
     detail_boxes df row_data)) as Hbody.
  { intros s. unfold detail_boxes.
    repeat first [apply emits_get_label | emits_step];
      split_and!; try done; by intros ? [= <-]. }
  exact (Hbody (ss w) w).
Qed.

End views.

(** ** One run of the page *)

Section page.
Import Pd St Vis Spec.

Lemma explore_run (parsed df : DataFrame) (ui : frontend) (w : world)
    (idx : nat) :
  add_row_id parsed = Some df → default_name_index df = Some idx →
  existsb is_radio (trace w) = false →
  explore parsed ui w
  = let name_col :=
      selectbox_value (columns df) (Some (Z.of_nat idx)) (name_pick ui) in
    match mode_after (ss w) with
    | Overview => overview_mode df (at_view idx w)
    | Detail => detail_mode df name_col ui (at_view idx w)
    | Question => question_analysis_mode df name_col ui (at_view idx w)
    end.
Proof.
  intros Hload Hidx Hradio. unfold explore. rewrite Hload.
  erewrite bind_ok; [|reflexivity].
  erewrite bind_ok; [|reflexivity].
  rewrite Hidx. erewrite bind_ok; [|reflexivity].
  erewrite bind_ok; cycle 1.
  { apply selectbox_ok; [|apply for_ret].
    unfold index_refused.
    destruct (default_name_index_some df) as (i & Hi & Hlt).
    rewrite Hidx in Hi. injection Hi as <-.
    destruct (decide (columns df = [])) as [->|Hne]; [done|].
    rewrite (bool_decide_eq_true_2 (0 ≤ _ < _)); [by rewrite andb_false_r|].
    specialize (Hlt Hne). lia. }
  erewrite bind_ok; cycle 1.
  { apply navigation_run. simpl. rewrite !existsb_is_radio_app, Hradio.
    done. }
  unfold at_view, navigation_record, tell. simpl.
  rewrite <- !(assoc_L (++)). simpl. by destruct (mode_after (ss w)).
Qed.

Lemma explore_load_error (parsed : DataFrame) (ui : frontend) (w : world) :
  add_row_id parsed = None → explore parsed ui w = Raise ValueError w.
Proof. intros Hload. unfold explore. by rewrite Hload. Qed.

Lemma run_file (parsed : DataFrame) (ui : frontend) (s : session_state) :
  run (File (Some parsed)) ui s
  = on_script_finished (explore parsed ui {| ss := s; trace := page_head |}).
Proof. done. Qed.

Lemma run_example (parsed : DataFrame) (ui : frontend) (s : session_state) :
  run (Example (Some parsed)) ui s
  = on_script_finished
      (explore parsed ui {| ss := s; trace := page_head ++ no_file_note |}).
Proof. done. Qed.

Lemma trace_on_script_finished {A} (o : outcome A) :
  trace (final (on_script_finished o)) = trace (final o).
Proof. by destruct o. Qed.

Lemma on_script_finished_ok {A} (o : outcome A) (a : A) (w' : world) :
  on_script_finished o = Ok a w' →
  ∃ w, o = Ok a w ∧ w' = drop_unbuilt w.
Proof. destruct o as [b w|e w]; [|done]. intros [= -> <-]. by exists w. Qed.

Lemma navigation_record_radio (idx : nat) (s : session_state) :
  existsb is_radio (navigation_record idx s) = true.
Proof.
  unfold navigation_record. rewrite !existsb_app. simpl.
  by rewrite !orb_true_r.
Qed.

Lemma at_view_radio (idx : nat) (w : world) (l : list action) :
  existsb is_radio (trace (at_view idx w) ++ l) = true.
Proof.
  unfold at_view. cbn [trace].
  by rewrite !existsb_app, navigation_record_radio, orb_true_r.
Qed.

Lemma pending_click_click_row (i : Z) (s : session_state) :
  pending_click (click_row i s) = Some i.
Proof. done. Qed.

Lemma name_col_elem_of (df : DataFrame) (idx : nat) (picked : option nat) :
  columns df ≠ [] → default_name_index df = Some idx →
  ∃ c, selectbox_value (columns df) (Some (Z.of_nat idx)) picked = Some c ∧
       c ∈ columns df.
Proof.
  intros Hne Hidx.
  destruct (default_name_index_some df) as (i & Hi & Hlt).
  rewrite Hidx in Hi. injection Hi as <-. specialize (Hlt Hne).
  destruct (selectbox_value (columns df) (Some (Z.of_nat idx)) picked)
    as [c|] eqn:Hc.
  - exists c. split; [done|]. by eapply selectbox_value_elem_of.
  - unfold selectbox_value in Hc.
    destruct (picked ≫= _); [done|]. simpl in Hc.
    rewrite Nat2Z.id in Hc. apply lookup_ge_None in Hc. lia.
Qed.

End page.

(** ** The detail renderer *)

Section detail_renderer.
Import Pd St Vis Spec.

Lemma detail_spec_boxes (cols : list string) (row : list scalar) :
  List.filter is_box (detail_spec cols row) = detail_spec cols row.
Proof.
  unfold detail_spec.
  induction (filter _ (zip cols row)) as [|p l IH]; [done|].
  rewrite fmap_cons. simpl. by rewrite IH.
Qed.

Lemma detail_page_boxes (idx : option Z) (r : Z) (v : scalar)
    (cols : list string) (row : list scalar) :
  List.filter is_box (detail_page idx r v (detail_spec cols row))
  = detail_spec cols row.
Proof. unfold detail_page. simpl. apply detail_spec_boxes. Qed.

(** What the boxes of a row are, cell by cell. *)
Lemma detail_spec_elem_of (cols : list string) (row : list scalar)
    (q v : scalar) :
  Box q v ∈ detail_spec cols row ↔
  ∃ j c, q = Str c ∧ cols !! j = Some c ∧ row !! j = Some v ∧
         c ≠ "Row_ID" ∧ v ≠ NaN.
Proof.
  unfold detail_spec. rewrite list_elem_of_fmap. split.
  - intros ([c x] & [= -> ->] & Hin). simpl in *.
    apply list_elem_of_filter in Hin as [[Hc Hx] Hin]. simpl in *.
    apply list_elem_of_lookup in Hin as [j Hj].
    apply lookup_zip_with_Some in Hj as (c' & x' & [= <- <-] & Hc' & Hx').
    by exists j, c.
  - intros (j & c & -> & Hc & Hv & Hne & Hna).
    exists (c, v). split; [done|].
    apply list_elem_of_filter. split; [done|].
    apply list_elem_of_lookup. exists j.
    apply lookup_zip_with_Some. by exists c, v.
Qed.

(** C2.  For a well-formed table, any column chosen as identifier and
    the row [r] that the row dropdown shows, the detail view runs to its
    end and its boxes are exactly [detail_spec]: one (column name, cell)
    box for every column of the row whose cell is not empty, in column
    order, the identifier column "Row_ID" of the loader left out, and
    nothing else left out, reordered or cut.  The boxes do not depend on
    the column chosen as identifier. *)
Theorem detail_renderer_boxes (df : DataFrame) (c : string) (ui : frontend)
    (w : world) (i r : Z) :
  wf df → c ∈ columns df →
  selected_index (ss w) = Some i → 0 ≤ i < Z.of_nat (nrows df) →
  selectbox_value (index df) (Some i) (row_pick ui) = Some r →
  ∃ row w' page,
    values df !! Z.to_nat r = Some row ∧
    detail_mode df (Some c) ui w = Ok tt w' ∧
    trace w' = trace w ++ page ∧
    List.filter is_box page = detail_spec (columns df) row.
Proof.
  intros Hwf Hc Hsel Hi Hr.
  destruct (detail_mode_ok df c ui w i r Hwf Hc Hsel Hi Hr)
    as (row & v & Hrow & _ & Hrun).
  eexists row, _, _. split; [done|]. split; [exact Hrun|].
  split; [done|]. apply detail_page_boxes.
Qed.

Lemma detail_renderer_boxes_witness :
  let df := {| columns := ["Row_ID"; "Name"; "Score"; "Note"];
               values := [[Int 0; Str "Ann"; Int 3; NaN];
                          [Int 1; Str "Bob"; NaN; Str "late"]] |} in
  let w := {| ss := initial_session; trace := [] |} in
  ∃ row w' page,
    values df !! Z.to_nat 0 = Some row ∧
    detail_mode df (Some "Name") untouched w = Ok tt w' ∧
    trace w' = trace w ++ page ∧
    List.filter is_box page = detail_spec (columns df) row.
Proof.
  intros df w.
  apply (detail_renderer_boxes df "Name" untouched w 0 0).
  - split; simpl; [by apply (bool_decide_unpack _) | by repeat constructor].
  - by apply (bool_decide_unpack _).
  - reflexivity.
  - unfold nrows, df. simpl. lia.
  - reflexivity.
Defined.

Lemma detail_mode_no_row_id (df : DataFrame) (name_col : option string)
    (ui : frontend) :
  emits (λ a, ∀ v, a ≠ Box (Str "Row_ID") v) (detail_mode df name_col ui).
Proof.
  unfold detail_mode, detail_boxes.
  repeat first [apply emits_get_label | emits_step]; try done.
  intros v [= ->]. done.
Qed.

Lemma available_cols_no_row_id (df : DataFrame) :
  "Row_ID" ∉ available_cols df.
Proof.
  unfold available_cols. intros Hin%list_elem_of_In.
  apply filter_In in Hin as [_ Hne]. by rewrite bool_decide_eq_true_2 in Hne.
Qed.

(** C10.  In a file that brings its own column "Row_ID" the loader adds
    nothing and keeps that column as it is; whatever its cells hold, the
    detail view shows no box for it, and the question dropdown neither
    offers it nor returns it. *)
Theorem own_row_id_hidden (parsed : DataFrame) :
  "Row_ID" ∈ columns parsed →
  add_row_id parsed = Some parsed ∧
  (∀ name_col ui w, ∃ page,
      trace (final (detail_mode parsed name_col ui w)) = trace w ++ page ∧
      ∀ v, Box (Str "Row_ID") v ∉ page) ∧
  ("Row_ID" ∉ available_cols parsed) ∧
  (∀ picked,
      selectbox_value (available_cols parsed) (Some 0) picked
      ≠ Some "Row_ID").
Proof.
  intros Hin. split_and!.
  - by apply add_row_id_present.
  - intros name_col ui w.
    destruct (detail_mode_no_row_id parsed name_col ui w) as (page & Hpage & Hall).
    exists page. split; [done|]. intros v Hv.
    eapply Forall_forall in Hall; [|exact Hv]. by eapply Hall.
  - apply available_cols_no_row_id.
  - intros picked Heq. apply selectbox_value_elem_of in Heq.
    by apply available_cols_no_row_id in Heq.
Qed.

Lemma own_row_id_hidden_witness :
  let parsed := {| columns := ["Row_ID"; "Name"];
                   values := [[Str "A-17"; Str "Ann"]] |} in
  add_row_id parsed = Some parsed ∧
  (∀ name_col ui w, ∃ page,
      trace (final (detail_mode parsed name_col ui w)) = trace w ++ page ∧
      ∀ v, Box (Str "Row_ID") v ∉ page) ∧
  ("Row_ID" ∉ available_cols parsed) ∧
  (∀ picked,
      selectbox_value (available_cols parsed) (Some 0) picked
      ≠ Some "Row_ID").
Proof.
  intros parsed. apply (own_row_id_hidden parsed).
  by apply (bool_decide_unpack _).
Defined.

End detail_renderer.

(** ** The row position kept in the session *)

Section row_position.
Import Pd St Vis Spec.

(** C1, as stated, fails: a session that holds the row position 3 (from a
    larger file) and the detail view, run on a file of one row.  The row
    dropdown refuses the position, the run stops with the exception, no
    box is shown and the session still holds 3. *)
Lemma stale_row_position_not_clamped :
  let parsed := {| columns := ["Name"; "Score"];
                   values := [[Str "Ann"; Int 3]] |} in
  let s := {| selected_index := Some 3;
              view_mode_selector := Some Detail;
              response_grid := None |} in
  (∃ w', run (File (Some parsed)) untouched s
           = Raise StreamlitAPIException w' ∧
         selected_index (ss w') = Some 3 ∧
         List.filter is_box (trace w') = []) ∧
  ¬ ∃ w', run (File (Some parsed)) untouched s = Ok tt w' ∧
          selected_index (ss w') = Some 0.
Proof.
  intros parsed s. split.
  - eexists. split; [vm_compute; reflexivity|]. by split.
  - intros (w' & Hrun & _). vm_compute in Hrun. discriminate Hrun.
Qed.

(** C1, amended.  The detail view takes the row position of the session
    as it is.  When it is a row of the table, that row is rendered and
    the position stays; when it is not, nothing is clamped: the run stops
    with an exception before any box is shown, and the session is not
    left with the position 0.  The exception is that of the row dropdown,
    with the session as it was, when the table has rows; it is
    [TypeError], with [None] left as the position, when the table has
    none. *)
Theorem row_position_checked (df : DataFrame) (c : string) (ui : frontend)
    (w : world) (i : Z) :
  wf df → c ∈ columns df →
  selected_index (ss w) = Some i → row_pick ui = None →
  (0 ≤ i < Z.of_nat (nrows df) →
     ∃ row v,
       values df !! Z.to_nat i = Some row ∧
       detail_mode df (Some c) ui w
       = Ok tt {| ss := with_selected_index (Some i) (ss w);
                  trace := trace w ++ detail_page (Some i) i v
                                        (detail_spec (columns df) row) |}) ∧
  (¬ (0 ≤ i < Z.of_nat (nrows df)) →
     ∃ e w',
       detail_mode df (Some c) ui w = Raise e w' ∧
       selected_index (ss w') ≠ Some 0 ∧
       Forall (λ a, ∀ q v, a ≠ Box q v) (drop (length (trace w)) (trace w')) ∧
       ((0 < nrows df)%nat → e = StreamlitAPIException ∧ ss w' = ss w) ∧
       (nrows df = 0%nat → e = TypeError ∧ selected_index (ss w') = None)).
Proof.
  intros Hwf Hc Hsel Hpick. split.
  - intros Hi.
    destruct (detail_mode_ok df c ui w i i Hwf Hc Hsel Hi)
      as (row & v & Hrow & _ & Hrun).
    { rewrite Hpick. by apply row_dropdown_default. }
    by exists row, v.
  - intros Hi. destruct (decide (0 < nrows df)%nat) as [Hrows|Hrows].
    + exists StreamlitAPIException. eexists. split.
      { by apply (detail_mode_refused df (Some c) ui w i). }
      split_and!.
      * simpl. rewrite Hsel. intros [= ->]. lia.
      * simpl. rewrite drop_app_length. by repeat constructor.
      * done.
      * intros ?. lia.
    + destruct (detail_mode_empty df (Some c) ui w) as (w' & Hrun & Hnone & Hbox);
        [lia|].
      exists TypeError, w'. split; [done|]. split_and!.
      * by rewrite Hnone.
      * done.
      * intros ?. lia.
      * done.
Qed.

Lemma row_position_checked_witness :
  let df := {| columns := ["Row_ID"; "Name"];
               values := [[Int 0; Str "Ann"]] |} in
  let w := {| ss := with_selected_index (Some 3) initial_session;
              trace := [] |} in
  ∃ e w',
    detail_mode df (Some "Name") untouched w = Raise e w' ∧
    selected_index (ss w') ≠ Some 0 ∧
    Forall (λ a, ∀ q v, a ≠ Box q v) (drop (length (trace w)) (trace w')) ∧
    ((0 < nrows df)%nat → e = StreamlitAPIException ∧ ss w' = ss w) ∧
    (nrows df = 0%nat → e = TypeError ∧ selected_index (ss w') = None).
Proof.
  intros df w.
  apply (proj2 (row_position_checked df "Name" untouched w 3
                  (Build_wf df ltac:(by apply (bool_decide_unpack _))
                               ltac:(by repeat constructor))
                  ltac:(by apply (bool_decide_unpack _))
                  eq_refl eq_refl)).
  unfold nrows, df. simpl. lia.
Defined.

End row_position.

(** ** The question renderer *)

Section question_renderer.
Import Pd St Vis Spec.
#[local] Arguments getitem : simpl never.

Lemma question_analysis_mode_ok (df : DataFrame) (c q : string)
    (ui : frontend) (w : world) (jn jq : nat) :
  wf df → columns df !! jn = Some c → columns df !! jq = Some q →
  selectbox_value (available_cols df) (Some 0) (question_pick ui) = Some q →
  question_analysis_mode df (Some c) ui w
  = Ok tt (tell (question_page q (question_spec jn jq (values df))) w).
Proof.
  intros [Hnd Hrect] Hjn Hjq Hq. unfold question_analysis_mode.
  do 3 (erewrite bind_ok; [|reflexivity]).
  erewrite bind_ok; cycle 1.
  { apply selectbox_ok; [|apply for_ret].
    unfold index_refused.
    apply selectbox_value_elem_of in Hq.
    destruct (available_cols df) as [|x l]; [by apply not_elem_of_nil in Hq|].
    rewrite (bool_decide_eq_true_2 (0 ≤ _ < _)); [by rewrite andb_false_r|].
    simpl. lia. }
  rewrite Hq.
  do 3 (erewrite bind_ok; [|reflexivity]).
  unfold question_boxes, iterrows.
  rewrite (question_loop _ _ c q jn jq) by done.
  unfold tell, question_page. simpl. by rewrite <- !(assoc_L (++)).
Qed.

Lemma question_spec_boxes (jn jq : nat) (rows : list (list scalar)) :
  List.filter is_box (question_spec jn jq rows) = question_spec jn jq rows.
Proof.
  unfold question_spec. induction rows as [|row rows IH]; [done|].
  rewrite bind_cons, List.filter_app, IH. f_equal. by case_decide.
Qed.

(** As many boxes as rows that have an answer. *)
Lemma question_spec_length (jn jq : nat) (rows : list (list scalar)) :
  length (question_spec jn jq rows)
  = length (filter (λ row, cell_at jq row ≠ NaN) rows).
Proof.
  unfold question_spec. induction rows as [|row rows IH]; [done|].
  rewrite bind_cons, length_app, IH, filter_cons.
  destruct (decide (cell_at jq row = NaN)) as [Hna|Hna].
  - by rewrite decide_False by (by intros ?).
  - by rewrite decide_True by done.
Qed.

Lemma filter_all {A} (P : A → Prop) `{!∀ x, Decision (P x)} (l : list A) :
  Forall P l → filter P l = l.
Proof.
  induction 1 as [|x l Hx _ IH]; [done|].
  by rewrite filter_cons, decide_True, IH.
Qed.

(** One row without an answer: one box fewer than rows. *)
Lemma question_spec_one_empty (jn jq : nat) (rows : list (list scalar))
    (k : nat) :
  (k < length rows)%nat →
  (∀ k' row, rows !! k' = Some row → cell_at jq row = NaN ↔ k' = k) →
  S (length (question_spec jn jq rows)) = length rows.
Proof.
  intros Hk Hone. rewrite question_spec_length.
  destruct (lookup_lt_is_Some_2 rows k Hk) as [row Hrow].
  rewrite <- (take_drop_middle rows k row Hrow) at 1.
  rewrite filter_app, filter_cons.
  rewrite decide_False by (intros Hna; apply Hna; by eapply Hone).
  rewrite !filter_all.
  - rewrite <- (take_drop_middle rows k row Hrow) at 3.
    rewrite !length_app. simpl. lia.
  - apply Forall_lookup. intros j x Hj Hna.
    rewrite lookup_drop in Hj. apply Hone in Hj. apply Hj in Hna. lia.
  - apply Forall_lookup. intros j x Hj Hna.
    apply lookup_take_Some in Hj as [Hj Hlt].
    apply Hone in Hj. apply Hj in Hna. lia.
Qed.

(** C3.  For a well-formed table, the column [c] chosen as identifier and
    the question [q] of the question dropdown, the question view runs to
    its end and its boxes are exactly [question_spec]: going through the
    rows in row order, one box (cell of [c], cell of [q]) for a row whose
    cell of [q] is not empty and no box for a row whose cell is empty.
    So there are as many boxes as rows with an answer; five rows of which
    exactly one has none give four boxes. *)
Theorem question_renderer_boxes (df : DataFrame) (c q : string)
    (ui : frontend) (w : world) (jn jq : nat) :
  wf df → columns df !! jn = Some c → columns df !! jq = Some q →
  selectbox_value (available_cols df) (Some 0) (question_pick ui) = Some q →
  (∃ w' page,
     question_analysis_mode df (Some c) ui w = Ok tt w' ∧
     trace w' = trace w ++ page ∧
     List.filter is_box page = question_spec jn jq (values df)) ∧
  length (question_spec jn jq (values df))
    = length (filter (λ row, cell_at jq row ≠ NaN) (values df)) ∧
  (∀ k, nrows df = 5%nat → (k < 5)%nat →
     (∀ k' row, values df !! k' = Some row →
                cell_at jq row = NaN ↔ k' = k) →
     length (question_spec jn jq (values df)) = 4%nat).
Proof.
  intros Hwf Hjn Hjq Hq. split_and!.
  - eexists _, _. split; [by eapply question_analysis_mode_ok|].
    split; [done|]. unfold question_page. simpl. apply question_spec_boxes.
  - apply question_spec_length.
  - intros k Hrows Hk Hone. unfold nrows in Hrows.
    pose proof (question_spec_one_empty jn jq (values df) k) as Hlen.
    rewrite Hrows in Hlen. specialize (Hlen Hk Hone). lia.
Qed.

Lemma question_renderer_boxes_witness :
  let df := {| columns := ["Row_ID"; "Name"; "Score"];
               values := [[Int 0; Str "Ann"; Int 3];
                          [Int 1; Str "Bob"; Int 5];
                          [Int 2; Str "Cyd"; NaN];
                          [Int 3; Str "Dee"; Int 4];
                          [Int 4; Str "Eli"; Int 1]] |} in
  let ui := {| name_pick := None; row_pick := None;
               question_pick := Some 1%nat |} in
  let w := {| ss := initial_session; trace := [] |} in
  (∃ w' page,
     question_analysis_mode df (Some "Name") ui w = Ok tt w' ∧
     trace w' = trace w ++ page ∧
     List.filter is_box page = question_spec 1 2 (values df)) ∧
  length (question_spec 1 2 (values df))
    = length (filter (λ row, cell_at 2 row ≠ NaN) (values df)) ∧
  (∀ k, nrows df = 5%nat → (k < 5)%nat →
     (∀ k' row, values df !! k' = Some row →
                cell_at 2 row = NaN ↔ k' = k) →
     length (question_spec 1 2 (values df)) = 4%nat).
Proof.
  intros df ui w.
  apply (question_renderer_boxes df "Name" "Score" ui w 1 2).
  - split; simpl; [by apply (bool_decide_unpack _) | by repeat constructor].
  - reflexivity.
  - reflexivity.
  - reflexivity.
Defined.

(** The scenario of the specification, run: the second of five scores is
    missing, and the question view on "Score" shows the four others. *)
Example question_view_five_rows :
  let df := {| columns := ["Row_ID"; "Name"; "Score"];
               values := [[Int 0; Str "Ann"; Int 3];
                          [Int 1; Str "Bob"; NaN];
                          [Int 2; Str "Cyd"; Int 5];
                          [Int 3; Str "Dee"; Int 4];
                          [Int 4; Str "Eli"; Int 1]] |} in
  let ui := {| name_pick := None; row_pick := None;
               question_pick := Some 1%nat |} in
  List.filter is_box
    (trace (final (question_analysis_mode df (Some "Name") ui
                     {| ss := initial_session; trace := [] |})))
  = [Box (Str "Ann") (Int 3); Box (Str "Cyd") (Int 5);
     Box (Str "Dee") (Int 4); Box (Str "Eli") (Int 1)].
Proof. vm_compute. reflexivity. Qed.

End question_renderer.

(** ** The selection state machine *)

Section selection.
Import Pd St Vis Spec.

Lemma bind_inv {A B} (m : M A) (k : A → M B) (w w' : world) (b : B) :
  bind m k w = Ok b w' → ∃ a w1, m w = Ok a w1 ∧ k a w1 = Ok b w'.
Proof.
  unfold bind. destruct (m w) as [a w1|e w1]; [|done]. by exists a, w1.
Qed.

Lemma keeps_ok {A} (m : M A) (w w' : world) (a : A) :
  keeps m → m w = Ok a w' → ss w' = ss w.
Proof. intros Hm Hrun. specialize (Hm w). by rewrite Hrun in Hm. Qed.

Lemma selectbox_inv {A} (widget : option Z → action) (options : list A)
    (index : option Z) (format_func : A → M unit) (picked : option nat)
    (w w' : world) (v : option A) :
  (∀ x, keeps (format_func x)) →
  selectbox widget options index format_func picked w = Ok v w' →
  index_refused options index = false ∧
  v = selectbox_value options index picked ∧ ss w' = ss w.
Proof.
  intros Hf Hrun.
  pose proof (keeps_ok _ _ _ _ (keeps_selectbox widget options index
    format_func picked Hf) Hrun) as Hss.
  unfold selectbox in Hrun.
  destruct (index_refused options index); [done|].
  apply bind_inv in Hrun as ([] & w1 & _ & Hrun).
  apply bind_inv in Hrun as ([] & w2 & _ & Hrun).
  by injection Hrun as <- _.
Qed.

(** The row dropdown left alone gives back the position it was built
    on. *)
Lemma row_dropdown_untouched (df : DataFrame) (idx : option Z) (r : Z) :
  index_refused (index df) idx = false →
  selectbox_value (index df) idx None = Some r → idx = Some r.
Proof.
  intros Hidx Hr. unfold selectbox_value in Hr. simpl in Hr.
  destruct idx as [i|]; [|done]. simpl in Hr.
  rewrite index_refused_row in Hidx.
  assert (0 < Z.of_nat (nrows df)) as Hrows.
  { apply lookup_lt_Some in Hr. rewrite index_length in Hr. lia. }
  rewrite bool_decide_eq_true_2 in Hidx by done. simpl in Hidx.
  apply negb_false_iff, bool_decide_eq_true_1 in Hidx.
  rewrite index_lookup in Hr by done. done.
Qed.

(** A detail view that runs to its end with the row dropdown left alone
    leaves the selection as it found it. *)
Lemma detail_mode_keeps_position (df : DataFrame) (name_col : option string)
    (ui : frontend) (w w' : world) :
  row_pick ui = None →
  detail_mode df name_col ui w = Ok tt w' →
  selected_index (ss w') = selected_index (ss w) ∧
  view_mode_selector (ss w') = view_mode_selector (ss w).
Proof.
  intros Hpick Hrun. unfold detail_mode in Hrun.
  apply bind_inv in Hrun as ([] & w1 & [= <-] & Hrun).
  apply bind_inv in Hrun as ([] & w2 & [= <-] & Hrun).
  apply bind_inv in Hrun as ([] & w3 & [= <-] & Hrun).
  apply bind_inv in Hrun as (s & w4 & [= <- <-] & Hrun).
  apply bind_inv in Hrun as (v & w5 & Hbox & Hrun).
  apply selectbox_inv in Hbox as (Hidx & -> & Hss);
    [|apply keeps_get_label].
  apply bind_inv in Hrun as ([] & w6 & [= <-] & Hrun).
  apply bind_inv in Hrun as (r & w7 & Hr & Hrun).
  simpl in *. rewrite Hpick in *.
  destruct (selectbox_value (index df) (selected_index (ss w)) None)
    as [r'|] eqn:Hval; [|done].
  apply row_dropdown_untouched in Hval; [|done].
  injection Hr as -> <-.
  eapply keeps_ok in Hrun; cycle 1.
  { repeat first [apply keeps_detail_boxes | keeps_step]. }
  rewrite Hrun. simpl. by rewrite Hss, Hval.
Qed.

Lemma navigation_record_boxes (idx : nat) (s : session_state) :
  List.filter is_box (navigation_record idx s) = [].
Proof.
  unfold navigation_record, click_writes. by destruct (pending_click s).
Qed.

(** C4.  Whatever the session holds, once a click on row [i] of the
    overview grid is pending, lines 75-91 put [i] under [selected_index]
    and the detail view under the key of the radio, and the radio shows
    the detail view.  For a row [i] of the loaded table the run then goes
    through the detail view, ends with the same selection and shows the
    boxes of row [i]. *)
Theorem row_click_opens_detail (parsed df : DataFrame) (ui : frontend)
    (s : session_state) (i : Z) :
  (∀ t, existsb is_radio t = false →
     ∃ w', navigation {| ss := click_row i s; trace := t |} = Ok Detail w' ∧
           selected_index (ss w') = Some i ∧
           view_mode_selector (ss w') = Some Detail) ∧
  (wf parsed → add_row_id parsed = Some df →
   0 ≤ i < Z.of_nat (nrows df) → row_pick ui = None →
     ∃ w' row,
       run (File (Some parsed)) ui (click_row i s) = Ok tt w' ∧
       selected_index (ss w') = Some i ∧
       view_mode_selector (ss w') = Some Detail ∧
       values df !! Z.to_nat i = Some row ∧
       List.filter is_box (trace w') = detail_spec (columns df) row).
Proof.
  split.
  - intros t Hradio. eexists. split; [by apply navigation_run|]. done.
  - intros Hwf Hload Hi Hpick.
    pose proof (add_row_id_wf _ _ Hwf Hload) as Hwf'.
    destruct (default_name_index_some df) as (idx & Hidx & _).
    destruct (name_col_elem_of df idx (name_pick ui)) as (c & Hc & Hin);
      [by eapply add_row_id_columns_nonempty|done|].
    rewrite run_file.
    rewrite (explore_run parsed df ui _ idx) by done.
    simpl. rewrite Hc.
    edestruct (detail_mode_ok df c ui
      (at_view idx {| ss := click_row i s; trace := page_head |}) i i)
      as (row & v & Hrow & _ & Hrun); [done..| |].
    { rewrite Hpick. by apply row_dropdown_default. }
    rewrite Hrun. cbn [on_script_finished].
    eexists _, row. split; [reflexivity|]. split_and!; try done.
    unfold drop_unbuilt, at_view. cbn [trace ss].
    rewrite !List.filter_app, navigation_record_boxes.
    apply detail_page_boxes.
Qed.

Lemma row_click_opens_detail_witness :
  let parsed := {| columns := ["Name"; "Score"];
                   values := [[Str "Ann"; Int 3]; [Str "Bob"; Int 5]] |} in
  let df := {| columns := ["Row_ID"; "Name"; "Score"];
               values := [[Int 0; Str "Ann"; Int 3];
                          [Int 1; Str "Bob"; Int 5]] |} in
  ∃ w' row,
    run (File (Some parsed)) untouched (click_row 1 initial_session)
    = Ok tt w' ∧
    selected_index (ss w') = Some 1 ∧
    view_mode_selector (ss w') = Some Detail ∧
    values df !! Z.to_nat 1 = Some row ∧
    List.filter is_box (trace w') = detail_spec (columns df) row.
Proof.
  intros parsed df.
  apply (proj2 (row_click_opens_detail parsed df untouched
                  initial_session 1)).
  - split; simpl; [by apply (bool_decide_unpack _) | by repeat constructor].
  - reflexivity.
  - unfold nrows, df. simpl. lia.
  - reflexivity.
Defined.

End selection.

Section view_mode_control.
Import Pd St Vis Spec.

Lemma pending_click_pick_view_mode (m : view_mode) (s : session_state) :
  pending_click (pick_view_mode m s) = pending_click s.
Proof. done. Qed.

Lemma mode_after_pick (m : view_mode) (s : session_state) :
  pending_click s = None → mode_after (pick_view_mode m s) = m.
Proof.
  intros Hnone. unfold mode_after.
  by rewrite pending_click_pick_view_mode, Hnone.
Qed.

Lemma apply_click_pick (m : view_mode) (s : session_state) :
  pending_click s = None →
  apply_click (pick_view_mode m s) = pick_view_mode m s.
Proof.
  intros Hnone. unfold apply_click.
  by rewrite pending_click_pick_view_mode, Hnone.
Qed.

(** A run of the page on a table that goes to its end, with no click
    pending and the row dropdown left alone: the session keeps its row
    position, the mode under the key of the radio is the one the radio
    showed, and the record of the run goes on from the navigation. *)
Lemma explore_ok (parsed : DataFrame) (ui : frontend) (w w0 : world) :
  existsb is_radio (trace w) = false → pending_click (ss w) = None →
  row_pick ui = None → explore parsed ui w = Ok tt w0 →
  selected_index (ss w0) = selected_index (ss w) ∧
  view_mode_selector (ss w0) = Some (mode_after (ss w)) ∧
  ∃ idx l, trace w0 = trace w ++ navigation_record idx (ss w) ++ l.
Proof.
  intros Hradio Hnone Hpick Hexp.
  destruct (add_row_id parsed) as [df|] eqn:Hload;
    [|by rewrite explore_load_error in Hexp].
  destruct (default_name_index_some df) as (idx & Hidx & _).
  rewrite (explore_run parsed df ui w idx) in Hexp by done.
  cbv zeta in Hexp.
  assert (selected_index (ss (at_view idx w)) = selected_index (ss w) ∧
          view_mode_selector (ss (at_view idx w)) = Some (mode_after (ss w)))
    as [Hsel Hmode].
  { unfold at_view, apply_click. simpl. by rewrite Hnone. }
  assert (∃ l, trace w0 = trace (at_view idx w) ++ l) as [l Hl].
  { destruct (mode_after (ss w)).
    - destruct (emits_overview_mode None df (at_view idx w)) as (l & Hl & _).
      rewrite Hexp in Hl. by exists l.
    - destruct (emits_detail_mode df
        (selectbox_value (columns df) (Some (Z.of_nat idx)) (name_pick ui))
        ui (at_view idx w)) as (l & Hl & _).
      rewrite Hexp in Hl. by exists l.
    - destruct (emits_question_analysis_mode None df
        (selectbox_value (columns df) (Some (Z.of_nat idx)) (name_pick ui))
        ui (at_view idx w)) as (l & Hl & _).
      rewrite Hexp in Hl. by exists l. }
  split_and!.
  - destruct (mode_after (ss w)).
    + rewrite overview_mode_run in Hexp. injection Hexp as <-. done.
    + apply detail_mode_keeps_position in Hexp as [-> _]; done.
    + apply (keeps_ok _ _ _ _
        (keeps_question_analysis_mode df _ ui)) in Hexp.
      by rewrite Hexp.
  - destruct (mode_after (ss w)).
    + rewrite overview_mode_run in Hexp. injection Hexp as <-. done.
    + apply detail_mode_keeps_position in Hexp as [_ ->]; done.
    + apply (keeps_ok _ _ _ _
        (keeps_question_analysis_mode df _ ui)) in Hexp.
      by rewrite Hexp.
  - exists idx, l. rewrite Hl. unfold at_view. cbn [trace].
    by rewrite <- !(assoc_L (++)).
Qed.

Lemma navigation_record_elem_of (idx : nat) (s : session_state) :
  Radio (mode_after s) ∈ navigation_record idx s.
Proof.
  unfold navigation_record. rewrite !elem_of_app, !elem_of_cons. auto 10.
Qed.

(** C9.  With no click of the overview pending, a view mode picked in the
    radio is the mode that lines 75-91 return and keep under the key of
    the radio, and the row position is the one the session had.  A run
    that goes to its end with the row dropdown left alone ends with that
    row position; when there is a table, and so a radio, the radio shows
    the picked mode and the session ends with it, whichever view is shown;
    when there is none, the run builds no radio and the key of the radio
    is gone from the session at its end. *)
Theorem view_mode_pick (s : session_state) (m : view_mode) :
  pending_click s = None →
  (∀ t, existsb is_radio t = false →
     ∃ w', navigation {| ss := pick_view_mode m s; trace := t |} = Ok m w' ∧
           selected_index (ss w') = selected_index s ∧
           view_mode_selector (ss w') = Some m) ∧
  (∀ up ui w', row_pick ui = None →
     run up ui (pick_view_mode m s) = Ok tt w' →
     selected_index (ss w') = selected_index s ∧
     (∀ parsed, up = File (Some parsed) ∨ up = Example (Some parsed) →
        view_mode_selector (ss w') = Some m ∧ Radio m ∈ trace w') ∧
     (up = NoFile ∨ up = File None ∨ up = Example None →
        view_mode_selector (ss w') = None ∧ ∀ m', Radio m' ∉ trace w')).
Proof.
  intros Hnone. split.
  - intros t Hradio. eexists. split.
    + rewrite navigation_run by done. simpl.
      by rewrite mode_after_pick.
    + simpl. by rewrite apply_click_pick.
  - intros up ui w' Hpick Hrun.
    assert (∀ parsed w,
      ss w = pick_view_mode m s → existsb is_radio (trace w) = false →
      on_script_finished (explore parsed ui w) = Ok tt w' →
      selected_index (ss w') = selected_index s ∧
      view_mode_selector (ss w') = Some m ∧ Radio m ∈ trace w') as Hexplore.
    { intros parsed w Hss Hradio Hfin.
      apply on_script_finished_ok in Hfin as (w0 & Hexp & ->).
      apply explore_ok in Hexp as (Hsel & Hmode & idx & l & Htrace);
        [|done|by rewrite Hss|done].
      rewrite Hss, ?mode_after_pick in * by done.
      unfold drop_unbuilt. cbn [ss trace selected_index view_mode_selector].
      rewrite Htrace. split_and!.
      - done.
      - by rewrite !existsb_app, navigation_record_radio, Hradio.
      - rewrite !elem_of_app. right. left.
        rewrite <- (mode_after_pick m s Hnone) at 1.
        apply navigation_record_elem_of. }
    assert (∀ t, existsb is_radio t = false →
      w' = drop_unbuilt {| ss := pick_view_mode m s; trace := t |} →
      selected_index (ss w') = selected_index s ∧
      view_mode_selector (ss w') = None ∧ ∀ m', Radio m' ∉ trace w')
      as Hnotable.
    { intros t Ht ->. unfold drop_unbuilt.
      cbn [ss trace selected_index view_mode_selector]. rewrite Ht.
      split_and!; [done..|]. intros m' Hin.
      apply list_elem_of_In in Hin.
      assert (existsb is_radio t = true) as Habs; [|congruence].
      apply existsb_exists. by exists (Radio m'). }
    destruct up as [|[parsed|]|[parsed|]].
    + injection Hrun as <-.
      destruct (Hnotable (page_head ++ no_file_note)) as (H1 & H2 & H3);
        [done..|].
      split_and!; [done| |done]. by intros ? [?|?].
    + rewrite run_example in Hrun.
      destruct (Hexplore parsed
        {| ss := pick_view_mode m s; trace := page_head ++ no_file_note |}
        eq_refl eq_refl Hrun) as (H1 & H2 & H3).
      split_and!; [done|done|]. by intros [?|[?|?]].
    + injection Hrun as <-.
      destruct (Hnotable (page_head ++ no_file_note ++ [Error_box]))
        as (H1 & H2 & H3); [done..|].
      split_and!; [done| |done]. by intros ? [?|?].
    + rewrite run_file in Hrun.
      destruct (Hexplore parsed
        {| ss := pick_view_mode m s; trace := page_head |}
        eq_refl eq_refl Hrun) as (H1 & H2 & H3).
      split_and!; [done|done|]. by intros [?|[?|?]].
    + injection Hrun as <-.
      destruct (Hnotable (page_head ++ [Error_box])) as (H1 & H2 & H3);
        [done..|].
      split_and!; [done| |done]. by intros ? [?|?].
Qed.

Lemma view_mode_pick_witness :
  let s := with_selected_index (Some 1) initial_session in
  let parsed := {| columns := ["Name"; "Score"];
                   values := [[Str "Ann"; Int 3]; [Str "Bob"; Int 5]] |} in
  (∃ w', navigation {| ss := pick_view_mode Question s; trace := [] |}
         = Ok Question w' ∧
         selected_index (ss w') = selected_index s ∧
         view_mode_selector (ss w') = Some Question) ∧
  (∃ w', run (File (Some parsed)) untouched (pick_view_mode Detail s)
         = Ok tt w' ∧
         selected_index (ss w') = selected_index s ∧
         view_mode_selector (ss w') = Some Detail ∧
         Radio Detail ∈ trace w').
Proof.
  intros s parsed. split.
  - apply (proj1 (view_mode_pick s Question eq_refl) [] eq_refl).
  - eexists. split; [vm_compute; reflexivity|].
    pose proof (proj2 (view_mode_pick s Detail eq_refl)
                  (File (Some parsed)) untouched _ eq_refl
                  ltac:(vm_compute; reflexivity)) as (H1 & H2 & _).
    split; [exact H1|]. apply (H2 parsed). by left.
Defined.

End view_mode_control.

(** ** The order of a run: the click first, the selection widgets after *)

Section ordering.
Import Pd St Vis Spec.

Lemma split_after_prefix (pre mid t1 t2 : list action) (a : action) :
  pre ++ mid = t1 ++ a :: t2 →
  Forall (λ x, is_selection_widget x = false) pre →
  is_selection_widget a = true →
  ∃ k, t1 = pre ++ k ∧ mid = k ++ a :: t2.
Proof.
  intros Heq Hpre Ha. revert t1 Heq.
  induction Hpre as [|x pre Hx _ IH]; intros t1 Heq.
  - by exists t1.
  - destruct t1 as [|y t1]; simpl in Heq.
    + injection Heq as -> _. congruence.
    + injection Heq as -> Heq. destruct (IH _ Heq) as (k & -> & ->).
      by exists k.
Qed.

Lemma quiet_no_radio (t : list action) :
  Forall quiet t → existsb is_radio t = false.
Proof.
  induction 1 as [|a t [Ha _] _ IH]; [done|].
  simpl. rewrite IH. by destruct a.
Qed.

Lemma explore_trace (parsed : DataFrame) (ui : frontend) (w : world) :
  existsb is_radio (trace w) = false →
  (trace (final (explore parsed ui w)) = trace w ∧ ¬ succeeds_load parsed) ∨
  ∃ idx rest,
    trace (final (explore parsed ui w))
    = trace w ++ navigation_record idx (ss w) ++ rest ∧
    Forall (view_action (index_after (ss w))) rest.
Proof.
  intros Hradio.
  destruct (add_row_id parsed) as [df|] eqn:Hload; cycle 1.
  { left. rewrite explore_load_error by done. split; [done|].
    unfold succeeds_load. rewrite Hload. by intros [? ?]. }
  right. destruct (default_name_index_some df) as (idx & Hidx & _).
  exists idx. rewrite (explore_run parsed df ui w idx) by done.
  assert (selected_index (ss (at_view idx w)) = index_after (ss w)) as Hsel.
  { unfold at_view. simpl. apply selected_index_apply_click. }
  assert (∀ o : outcome unit,
    (∃ l, trace (final o) = trace (at_view idx w) ++ l ∧
          Forall (view_action (index_after (ss w))) l) →
    ∃ rest, trace (final o)
            = trace w ++ navigation_record idx (ss w) ++ rest ∧
            Forall (view_action (index_after (ss w))) rest) as Hview.
  { intros o (l & Hl & HP). exists l. rewrite Hl. unfold at_view.
    cbn [trace]. by rewrite <- !(assoc_L (++)). }
  cbv zeta. destruct (mode_after (ss w)); apply Hview.
  - apply emits_overview_mode.
  - rewrite <- Hsel. apply emits_detail_mode.
  - apply emits_question_analysis_mode.
Qed.

Lemma quiet_page_head : Forall quiet (page_head ++ no_file_note).
Proof. by repeat constructor. Qed.

(** The record of a run: either nothing of the selection is in it, and
    then no table was loaded, or it is the head of the page, the
    navigation and a view. *)
Lemma run_trace (up : upload) (ui : frontend) (s : session_state) :
  (Forall quiet (trace (final (run up ui s))) ∧
   ∀ parsed, up = File (Some parsed) ∨ up = Example (Some parsed) →
             ¬ succeeds_load parsed) ∨
  ∃ head idx rest,
    trace (final (run up ui s)) = head ++ navigation_record idx s ++ rest ∧
    Forall quiet head ∧ Forall (view_action (index_after s)) rest.
Proof.
  assert (∀ parsed w,
    ss w = s → Forall quiet (trace w) →
    (Forall quiet (trace (final (explore parsed ui w))) ∧
     ¬ succeeds_load parsed) ∨
    ∃ head idx rest,
      trace (final (explore parsed ui w))
      = head ++ navigation_record idx s ++ rest ∧
      Forall quiet head ∧ Forall (view_action (index_after s)) rest)
    as Hexplore.
  { intros parsed w <- Hquiet.
    destruct (explore_trace parsed ui w)
      as [[-> Hload]|(idx & rest & -> & Hrest)]; [by apply quiet_no_radio|..].
    - by left.
    - right. by exists (trace w), idx, rest. }
  destruct up as [|[parsed|]|[parsed|]].
  - left. split; [by repeat constructor|]. by intros ? [?|?].
  - rewrite run_example, !trace_on_script_finished.
    destruct (Hexplore parsed {| ss := s; trace := page_head ++ no_file_note |})
      as [[Hq Hload]|Hnav]; [done|apply quiet_page_head|..].
    + left. split; [done|]. by intros ? [[=]|[= <-]].
    + by right.
  - left. split; [by repeat constructor|]. by intros ? [?|?].
  - rewrite run_file, !trace_on_script_finished.
    destruct (Hexplore parsed {| ss := s; trace := page_head |})
      as [[Hq Hload]|Hnav]; [done|by repeat constructor|..].
    + left. split; [done|]. by intros ? [[= <-]|[=]].
    + by right.
  - left. split; [by repeat constructor|]. by intros ? [?|?].
Qed.

End ordering.

Section click_before_widgets.
Import Pd St Vis Spec.

Lemma click_writes_elem_of (s : session_state) (i : Z) :
  pending_click s = Some i →
  Write_selected_index (Some i) ∈ click_writes s ∧
  Write_view_mode Detail ∈ click_writes s.
Proof.
  intros Hi. unfold click_writes. rewrite Hi. split.
  - by left.
  - right. by left.
Qed.

Lemma click_writes_no_widget (s : session_state) :
  Forall (λ x, is_selection_widget x = false) (click_writes s).
Proof.
  unfold click_writes. destruct (pending_click s); by repeat constructor.
Qed.

Lemma view_action_no_write (idx : option Z) (l : list action) :
  Forall (view_action idx) l → Forall (λ b, is_view_mode_write b = false) l.
Proof. intros H. eapply Forall_impl; [exact H|]. by intros a (_ & Ha & _). Qed.

(** C5.  In every run of the page: whenever a selection widget (the
    view-mode radio or the row dropdown) is built, a click of the
    overview that was pending at the start of the run has been written to
    the session before (both keys), and no assignment to the view mode
    comes after.  So the radio only ever shows the mode and the row
    dropdown is only ever built on the row position that result from the
    click.  And the radio is built in every run whose table loads. *)
Theorem click_before_widgets (up : upload) (ui : frontend)
    (s : session_state) :
  let t := trace (final (run up ui s)) in
  (∀ t1 a t2, t = t1 ++ a :: t2 → is_selection_widget a = true →
     (∀ i, pending_click s = Some i →
        Write_selected_index (Some i) ∈ t1 ∧ Write_view_mode Detail ∈ t1) ∧
     Forall (λ b, is_view_mode_write b = false) t2) ∧
  (∀ m, Radio m ∈ t → m = mode_after s) ∧
  (∀ idx, Selectbox_row idx ∈ t → idx = index_after s) ∧
  (∀ parsed, up = File (Some parsed) ∨ up = Example (Some parsed) →
     succeeds_load parsed → Radio (mode_after s) ∈ t).
Proof.
  intros t. subst t.
  destruct (run_trace up ui s)
    as [[Hquiet Hnoload]|(head & idx & rest & Ht & Hhead & Hrest)].
  { split_and!.
    - intros t1 a t2 Heq Ha. rewrite Heq in Hquiet.
      apply Forall_app in Hquiet as [_ Hquiet].
      apply Forall_cons in Hquiet as [[Hquiet _] _]. congruence.
    - intros m Hin. eapply Forall_forall in Hquiet as [Hq _]; [|exact Hin].
      done.
    - intros i Hin. eapply Forall_forall in Hquiet as [Hq _]; [|exact Hin].
      done.
    - intros parsed Hup Hload. by apply Hnoload in Hup. }
  rewrite Ht.
  assert (Forall (λ x, is_selection_widget x = false)
            (head ++ [Text "2. Configuration";
                      Selectbox_name (Some (Z.of_nat idx))] ++
             click_writes s ++ [Text "3. View Mode"])) as Hpre.
  { apply Forall_app. split.
    - eapply Forall_impl; [exact Hhead|]. by intros a [Ha _].
    - apply Forall_app. split; [by repeat constructor|].
      apply Forall_app. split; [apply click_writes_no_widget|].
      by repeat constructor. }
  assert (head ++ navigation_record idx s ++ rest
          = (head ++ [Text "2. Configuration";
                      Selectbox_name (Some (Z.of_nat idx))] ++
             click_writes s ++ [Text "3. View Mode"]) ++
            Radio (mode_after s) :: rest) as Hshape.
  { unfold navigation_record. by rewrite <- !(assoc_L (++)). }
  split_and!.
  - intros t1 a t2 Heq Ha. rewrite Hshape in Heq.
    destruct (split_after_prefix _ _ _ _ _ Heq Hpre Ha) as (k & -> & Hmid).
    split.
    + intros i Hi. destruct (click_writes_elem_of s i Hi) as [H1 H2].
      split; rewrite !elem_of_app; auto 10.
    + destruct k as [|b k]; simpl in Hmid.
      * injection Hmid as <- <-. by eapply view_action_no_write.
      * injection Hmid as <- ->.
        apply view_action_no_write in Hrest.
        apply Forall_app in Hrest as [_ Hrest].
        by apply Forall_cons in Hrest as [_ Hrest].
  - intros m. rewrite Hshape, elem_of_app, elem_of_cons.
    intros [Hin|[Heq|Hin]].
    + eapply Forall_forall in Hpre; [|exact Hin]. done.
    + congruence.
    + eapply Forall_forall in Hrest as (Hr & _); [|exact Hin]. done.
  - intros i. rewrite Hshape, elem_of_app, elem_of_cons.
    intros [Hin|[Heq|Hin]].
    + eapply Forall_forall in Hpre; [|exact Hin]. done.
    + done.
    + eapply Forall_forall in Hrest as (_ & _ & Hr); [|exact Hin].
      by apply Hr.
  - intros _ _ _. rewrite Hshape, elem_of_app, elem_of_cons. auto.
Qed.

End click_before_widgets.

Section witnesses.
Import Pd St Vis Spec.

Lemma click_before_widgets_witness :
  let parsed := {| columns := ["Name"; "Score"];
                   values := [[Str "Ann"; Int 3]; [Str "Bob"; Int 5]] |} in
  let s := click_row 1 initial_session in
  Radio (mode_after s)
    ∈ trace (final (run (File (Some parsed)) untouched s)).
Proof.
  intros parsed s.
  apply (proj2 (proj2 (proj2
           (click_before_widgets (File (Some parsed)) untouched s)))
           parsed).
  - by left.
  - eexists. reflexivity.
Defined.

Lemma default_identifier_choice_witness :
  default_identifier {| columns := ["Row_ID"; "ID"; "Name"];
                        values := [[Int 0; Int 41; Str "Ann"]] |}
  = Some "Name".
Proof.
  apply (proj1 (default_identifier_choice _) ["Row_ID"; "ID"] "Name" []).
  - reflexivity.
  - repeat constructor; intros H; apply name_like_spec in H; discriminate H.
  - apply name_like_spec. reflexivity.
Defined.

End witnesses.

(** * Further properties of the script *)

(** ** The loader *)

Section loader_more.
Import Pd St Vis Spec.

(** A well-formed table stays well formed through the loader (distinct
    column names, one cell per column in every row), with the same number
    of rows. *)
Theorem loader_keeps_wf (source df : DataFrame) :
  wf source → add_row_id source = Some df →
  wf df ∧ nrows df = nrows source.
Proof.
  intros Hwf Hload. split.
  - by eapply add_row_id_wf.
  - by apply add_row_id_nrows.
Qed.

Lemma loader_keeps_wf_witness :
  let source := {| columns := ["index"; "Name"];
                   values := [[Int 7; Str "Ann"]; [Int 9; NaN]] |} in
  let df := {| columns := ["level_0"; "Row_ID"; "Name"];
               values := [[Int 0; Int 7; Str "Ann"];
                          [Int 1; Int 9; NaN]] |} in
  wf df ∧ nrows df = nrows source.
Proof.
  intros source df. apply (loader_keeps_wf source df).
  - split; simpl; [by apply (bool_decide_unpack _) | by repeat constructor].
  - reflexivity.
Defined.

Lemma rename_elem_of_new (old new : string) (cols : list string) :
  old ∈ cols → new ∈ (λ c, if decide (c = old) then new else c) <$> cols.
Proof.
  intros Hin. apply list_elem_of_fmap. exists old.
  by rewrite decide_True.
Qed.

(** Whatever the loader returns has a column "Row_ID", so loading it once
    more changes nothing. *)
Theorem loader_idempotent (source df : DataFrame) :
  add_row_id source = Some df →
  "Row_ID" ∈ columns df ∧ add_row_id df = Some df.
Proof.
  intros Hload.
  assert ("Row_ID" ∈ columns df) as Hin.
  { unfold add_row_id, reset_index in Hload.
    repeat case_decide; simplify_eq/=.
    - right. by apply rename_elem_of_new.
    - by left.
    - by destruct (decide ("Row_ID" ∈ columns df)). }
  split; [done|]. by apply add_row_id_present.
Qed.

Lemma loader_idempotent_witness :
  let source := {| columns := ["Name"]; values := [[Str "Ann"]] |} in
  let df := {| columns := ["Row_ID"; "Name"];
               values := [[Int 0; Str "Ann"]] |} in
  "Row_ID" ∈ columns df ∧ add_row_id df = Some df.
Proof. intros source df. by apply (loader_idempotent source df). Defined.

(** The loader fails exactly on a table that has no column "Row_ID" but
    both a column "index" and a column "level_0"; the run then stops with
    [ValueError] right after the head of the page, the session as it
    was. *)
Theorem loader_fails_iff (source : DataFrame) (ui : frontend)
    (s : session_state) :
  (add_row_id source = None ↔
   ("Row_ID" ∉ columns source) ∧ "index" ∈ columns source ∧
   "level_0" ∈ columns source) ∧
  (add_row_id source = None →
   run (File (Some source)) ui s
   = Raise ValueError {| ss := s; trace := page_head |}).
Proof.
  split.
  - unfold add_row_id, reset_index. split.
    + intros H. repeat case_decide; simplify_eq/=; done.
    + intros (H1 & H2 & H3).
      rewrite decide_True by done.
      rewrite (decide_True (P := "index" ∈ columns source)) by done.
      by rewrite decide_True by done.
  - intros Hload. by rewrite run_file, explore_load_error.
Qed.

Lemma loader_fails_iff_witness :
  let source := {| columns := ["index"; "level_0"];
                   values := [[Int 7; Int 8]] |} in
  run (File (Some source)) untouched initial_session
  = Raise ValueError {| ss := initial_session; trace := page_head |}.
Proof.
  intros source.
  apply (proj2 (loader_fails_iff source untouched initial_session)).
  reflexivity.
Defined.

Lemma available_cols_all (cols : list string) :
  "Row_ID" ∉ cols →
  List.filter (λ c, negb (bool_decide (c = "Row_ID"))) cols = cols.
Proof.
  induction cols as [|c cols IH]; intros Hnotin; [done|].
  apply not_elem_of_cons in Hnotin as [Hne Hnotin]. simpl.
  rewrite bool_decide_eq_false_2 by done. simpl. by rewrite IH.
Qed.

(** For a file without a column "Row_ID" or "index", the questions offered
    in the question view are exactly the columns of the file, in their
    order. *)
Theorem questions_are_source_columns (source : DataFrame) :
  "Row_ID" ∉ columns source → "index" ∉ columns source →
  ∃ df, add_row_id source = Some df ∧ available_cols df = columns source.
Proof.
  intros Hrow Hidx. eexists. split; [by apply add_row_id_fresh|].
  unfold available_cols. simpl. by apply available_cols_all.
Qed.

Lemma questions_are_source_columns_witness :
  let source := {| columns := ["Name"; "Score"];
                   values := [[Str "Ann"; Int 3]] |} in
  ∃ df, add_row_id source = Some df ∧ available_cols df = ["Name"; "Score"].
Proof.
  intros source. apply (questions_are_source_columns source);
    by apply (bool_decide_unpack _).
Defined.

Lemma not_name_like_Row_ID : ¬ name_like "Row_ID".
Proof. intros H. by apply name_like_spec in H. Qed.

(** For a file without a column "Row_ID" or "index" in which no column
    name contains "name", the identifier offered by default is the added
    column "Row_ID": respondents are labelled by their row number. *)
Theorem default_identifier_row_id (source : DataFrame) :
  "Row_ID" ∉ columns source → "index" ∉ columns source →
  Forall (λ c, ¬ name_like c) (columns source) →
  ∃ df, add_row_id source = Some df ∧ default_identifier df = Some "Row_ID".
Proof.
  intros Hrow Hidx Hnone. eexists. split; [by apply add_row_id_fresh|].
  rewrite default_identifier_none; [done|].
  simpl. constructor; [apply not_name_like_Row_ID | done].
Qed.

Lemma default_identifier_row_id_witness :
  let source := {| columns := ["ID"; "Score"];
                   values := [[Int 41; Int 3]] |} in
  ∃ df, add_row_id source = Some df ∧ default_identifier df = Some "Row_ID".
Proof.
  intros source. apply (default_identifier_row_id source).
  - by apply (bool_decide_unpack _).
  - by apply (bool_decide_unpack _).
  - repeat constructor; intros H; apply name_like_spec in H; discriminate H.
Defined.

(** Whatever the user picked in it, the identifier dropdown of a loaded
    table is built on an index it accepts and returns a column of the
    table. *)
Theorem identifier_is_a_column (source df : DataFrame) (picked : option nat) :
  add_row_id source = Some df →
  ∃ i c,
    default_name_index df = Some i ∧
    index_refused (columns df) (Some (Z.of_nat i)) = false ∧
    selectbox_value (columns df) (Some (Z.of_nat i)) picked = Some c ∧
    c ∈ columns df.
Proof.
  intros Hload.
  pose proof (add_row_id_columns_nonempty _ _ Hload) as Hne.
  destruct (default_name_index_some df) as (i & Hi & Hlt).
  destruct (name_col_elem_of df i picked Hne Hi) as (c & Hc & Hin).
  exists i, c. split_and!; try done.
  unfold index_refused.
  rewrite (bool_decide_eq_true_2 (0 ≤ _ < _)); [by rewrite andb_false_r|].
  specialize (Hlt Hne). lia.
Qed.

Lemma identifier_is_a_column_witness :
  let source := {| columns := ["ID"; "Full Name"];
                   values := [[Int 41; Str "Ann"]] |} in
  let df := {| columns := ["Row_ID"; "ID"; "Full Name"];
               values := [[Int 0; Int 41; Str "Ann"]] |} in
  ∃ i c,
    default_name_index df = Some i ∧
    index_refused (columns df) (Some (Z.of_nat i)) = false ∧
    selectbox_value (columns df) (Some (Z.of_nat i)) (Some 1%nat) = Some c ∧
    c ∈ columns df.
Proof.
  intros source df.
  by apply (identifier_is_a_column source df (Some 1%nat)).
Defined.

End loader_more.

(** ** The detail view *)

Section detail_more.
Import Pd St Vis Spec.
#[local] Arguments getitem : simpl never.

Lemma filter_zip_no_row_id (cols : list string) (row : list scalar) :
  "Row_ID" ∉ cols →
  filter (λ p : string * scalar, p.1 ≠ "Row_ID" ∧ p.2 ≠ NaN) (zip cols row)
  = filter (λ p : string * scalar, p.2 ≠ NaN) (zip cols row).
Proof.
  revert row. induction cols as [|c cols IH]; intros row Hnotin; [done|].
  apply not_elem_of_cons in Hnotin as [Hne Hnotin].
  destruct row as [|v row]; [done|]. simpl.
  rewrite !filter_cons, IH by done. simpl.
  destruct (decide (v ≠ NaN)) as [Hv|Hv].
  - by rewrite decide_True by (split; congruence).
  - by rewrite decide_False by (by intros [_ ?]).
Qed.

Lemma insert_index_row (name : string) (df : DataFrame) (k : nat)
    (row : list scalar) :
  values df !! k = Some row →
  values (insert_index name df) !! k = Some (Int (Z.of_nat k) :: row).
Proof. intros Hrow. simpl. by rewrite list_lookup_imap, Hrow. Qed.

(** For a file without a column "Row_ID" or "index", the detail view of
    the loaded table shows, for the row at position [k], a box for every
    non-empty cell of that row of the file, in column order: the added
    column does not show and no column of the file is hidden. *)
Theorem loaded_row_boxes (source : DataFrame) (c : string) (ui : frontend)
    (w : world) (k : nat) (row : list scalar) :
  wf source →
  "Row_ID" ∉ columns source → "index" ∉ columns source →
  c ∈ columns source → values source !! k = Some row →
  selected_index (ss w) = Some (Z.of_nat k) → row_pick ui = None →
  ∃ df w' page,
    add_row_id source = Some df ∧
    detail_mode df (Some c) ui w = Ok tt w' ∧
    trace w' = trace w ++ page ∧
    List.filter is_box page
    = (λ p, Box (Str p.1) p.2) <$>
        filter (λ p : string * scalar, p.2 ≠ NaN) (zip (columns source) row).
Proof.
  intros Hwf Hrow Hidx Hc Hk Hsel Hpick.
  pose proof (add_row_id_fresh source Hrow Hidx) as Hload.
  pose proof (add_row_id_wf _ _ Hwf Hload) as Hwf'.
  set (df := insert_index "Row_ID" source) in *.
  assert (0 ≤ Z.of_nat k < Z.of_nat (nrows df)) as Hrange.
  { unfold df. rewrite nrows_insert_index. unfold nrows.
    apply lookup_lt_Some in Hk. lia. }
  destruct (detail_mode_ok df c ui w (Z.of_nat k) (Z.of_nat k))
    as (row' & v & Hrow' & _ & Hrun); [done| |done..| |].
  { simpl. by right. }
  { rewrite Hpick. by apply row_dropdown_default. }
  subst df. rewrite Nat2Z.id in Hrow'.
  rewrite (insert_index_row "Row_ID" source k row Hk) in Hrow'.
  injection Hrow' as <-.
  eexists _, _, _. split; [done|]. split; [exact Hrun|]. split; [done|].
  rewrite detail_page_boxes. unfold detail_spec. simpl.
  rewrite filter_cons, decide_False by (by intros [? _]).
  by rewrite filter_zip_no_row_id.
Qed.

Lemma loaded_row_boxes_witness :
  let source := {| columns := ["Name"; "Score"; "Note"];
                   values := [[Str "Ann"; Int 3; NaN];
                              [Str "Bob"; NaN; Str "late"]] |} in
  let w := {| ss := with_selected_index (Some 1) initial_session;
              trace := [] |} in
  ∃ df w' page,
    add_row_id source = Some df ∧
    detail_mode df (Some "Name") untouched w = Ok tt w' ∧
    trace w' = trace w ++ page ∧
    List.filter is_box page
    = [Box (Str "Name") (Str "Bob"); Box (Str "Note") (Str "late")].
Proof.
  intros source w.
  apply (loaded_row_boxes source "Name" untouched w 1
           [Str "Bob"; NaN; Str "late"]).
  - split; simpl; [by apply (bool_decide_unpack _) | by repeat constructor].
  - by apply (bool_decide_unpack _).
  - by apply (bool_decide_unpack _).
  - by apply (bool_decide_unpack _).
  - reflexivity.
  - reflexivity.
  - reflexivity.
Defined.

(** A row picked in the row dropdown of the detail view is the row that is
    rendered and the position that is stored in the session, whatever
    valid position the session held. *)
Theorem row_dropdown_pick (df : DataFrame) (c : string) (ui : frontend)
    (w : world) (i : Z) (k : nat) :
  wf df → c ∈ columns df →
  selected_index (ss w) = Some i → 0 ≤ i < Z.of_nat (nrows df) →
  row_pick ui = Some k → (k < nrows df)%nat →
  ∃ row v w' page,
    values df !! k = Some row ∧
    getitem (zip (columns df) row) (Some c) = Some v ∧
    detail_mode df (Some c) ui w = Ok tt w' ∧
    selected_index (ss w') = Some (Z.of_nat k) ∧
    trace w' = trace w ++ page ∧
    Heading_name v ∈ page ∧
    List.filter is_box page = detail_spec (columns df) row.
Proof.
  intros Hwf Hc Hsel Hi Hpick Hk.
  destruct (detail_mode_ok df c ui w i (Z.of_nat k))
    as (row & v & Hrow & Hv & Hrun); [done..| |].
  { rewrite Hpick. unfold selectbox_value. simpl.
    rewrite <- (Nat2Z.id k) at 1. rewrite index_lookup; [done|]. lia. }
  rewrite Nat2Z.id in Hrow.
  eexists row, v, _, _. split_and!; [done|done|exact Hrun|done|done| |].
  - unfold detail_page. rewrite elem_of_app. left.
    do 5 right. by left.
  - apply detail_page_boxes.
Qed.

Lemma row_dropdown_pick_witness :
  let df := {| columns := ["Row_ID"; "Name"; "Score"];
               values := [[Int 0; Str "Ann"; Int 3];
                          [Int 1; Str "Bob"; Int 5]] |} in
  let ui := {| name_pick := None; row_pick := Some 1%nat;
               question_pick := None |} in
  let w := {| ss := initial_session; trace := [] |} in
  ∃ row v w' page,
    values df !! 1%nat = Some row ∧
    getitem (zip (columns df) row) (Some "Name") = Some v ∧
    detail_mode df (Some "Name") ui w = Ok tt w' ∧
    selected_index (ss w') = Some 1 ∧
    trace w' = trace w ++ page ∧
    Heading_name v ∈ page ∧
    List.filter is_box page = detail_spec (columns df) row.
Proof.
  intros df ui w.
  apply (row_dropdown_pick df "Name" ui w 0 1).
  - split; simpl; [by apply (bool_decide_unpack _) | by repeat constructor].
  - by apply (bool_decide_unpack _).
  - reflexivity.
  - unfold nrows, df. simpl. lia.
  - reflexivity.
  - unfold nrows, df. simpl. lia.
Defined.

(** A detail view that runs to its end leaves in the session a row
    position that is a row of the table. *)
Theorem detail_run_index_in_range (df : DataFrame) (name_col : option string)
    (ui : frontend) (w w' : world) :
  detail_mode df name_col ui w = Ok tt w' →
  ∃ r, selected_index (ss w') = Some r ∧ 0 ≤ r < Z.of_nat (nrows df).
Proof.
  intros Hrun. unfold detail_mode in Hrun.
  apply bind_inv in Hrun as ([] & w1 & [= <-] & Hrun).
  apply bind_inv in Hrun as ([] & w2 & [= <-] & Hrun).
  apply bind_inv in Hrun as ([] & w3 & [= <-] & Hrun).
  apply bind_inv in Hrun as (s & w4 & [= <- <-] & Hrun).
  apply bind_inv in Hrun as (v & w5 & Hbox & Hrun).
  apply selectbox_inv in Hbox as (Hidx & -> & Hss);
    [|apply keeps_get_label].
  apply bind_inv in Hrun as ([] & w6 & [= <-] & Hrun).
  apply bind_inv in Hrun as (r & w7 & Hr & Hrun).
  simpl in *.
  destruct (selectbox_value (index df) (selected_index (ss w)) (row_pick ui))
    as [r'|] eqn:Hval; [|done].
  injection Hr as -> <-.
  apply selectbox_value_elem_of, index_elem_of in Hval.
  eapply keeps_ok in Hrun; cycle 1.
  { repeat first [apply keeps_detail_boxes | keeps_step]. }
  exists r. by rewrite Hrun.
Qed.

Lemma detail_run_index_in_range_witness :
  let df := {| columns := ["Row_ID"; "Name"];
               values := [[Int 0; Str "Ann"]; [Int 1; Str "Bob"]] |} in
  let ui := {| name_pick := None; row_pick := Some 1%nat;
               question_pick := None |} in
  ∃ r, selected_index (ss (final (detail_mode df (Some "Name") ui
                                    {| ss := initial_session; trace := [] |})))
       = Some r ∧ 0 ≤ r < Z.of_nat (nrows df).
Proof.
  intros df ui.
  apply (detail_run_index_in_range df (Some "Name") ui
           {| ss := initial_session; trace := [] |}).
  vm_compute. reflexivity.
Defined.

(** The label of the row dropdown can be computed for every row position
    the dropdown offers, and computing it changes nothing. *)
Theorem label_for_every_row (df : DataFrame) (c : string) (i : Z) (w : world) :
  wf df → c ∈ columns df → i ∈ index df →
  get_label df (Some c) i w = Ok tt w.
Proof.
  intros Hwf Hc Hi.
  pose proof (labels_ok df c [i] w Hwf Hc) as Hrun.
  simpl in Hrun. unfold bind in Hrun.
  destruct (get_label df (Some c) i w) as [[] w1|e w1] eqn:Hlabel.
  - apply Hrun. constructor; [by apply index_elem_of | done].
  - exfalso. assert (Raise e w1 = Ok tt w) as Habs; [|done].
    apply Hrun. constructor; [by apply index_elem_of | done].
Qed.

Lemma label_for_every_row_witness :
  let df := {| columns := ["Row_ID"; "Name"];
               values := [[Int 0; Str "Ann"]; [Int 1; NaN]] |} in
  let w := {| ss := initial_session; trace := [] |} in
  get_label df (Some "Name") 1 w = Ok tt w.
Proof.
  intros df w. apply (label_for_every_row df "Name" 1 w).
  - split; simpl; [by apply (bool_decide_unpack _) | by repeat constructor].
  - by apply (bool_decide_unpack _).
  - by apply (bool_decide_unpack _).
Defined.

End detail_more.

(** ** The question view *)

Section question_more.
Import Pd St Vis Spec.
#[local] Arguments getitem : simpl never.

Lemma question_dropdown_accepts (df : DataFrame) :
  index_refused (available_cols df) (Some 0) = false.
Proof.
  unfold index_refused. destruct (available_cols df) as [|q l]; [done|].
  rewrite (bool_decide_eq_true_2 (0 ≤ _ < _)); [by rewrite andb_false_r|].
  simpl. lia.
Qed.

(** A table whose only column is "Row_ID" leaves the question dropdown
    without options: it returns [None], the heading is printed for
    [None], and with at least one row in the table the row loop stops at
    its first row with [KeyError]; no box is shown and the session is as
    it was. *)
Theorem question_without_questions (df : DataFrame) (c : string)
    (ui : frontend) (w : world) :
  wf df → c ∈ columns df → available_cols df = [] → values df ≠ [] →
  question_analysis_mode df (Some c) ui w
  = Raise KeyError
      (tell [Text "Question Analysis Viewer"; Text "---";
             Text "Select Question"; Selectbox_question (Some 0);
             Heading_question None; Text "divider"; Text "style"] w).
Proof.
  intros Hwf Hc Hnone Hrows. unfold question_analysis_mode.
  do 3 (erewrite bind_ok; [|reflexivity]).
  erewrite bind_ok; cycle 1.
  { apply selectbox_ok; [apply question_dropdown_accepts | apply for_ret]. }
  rewrite Hnone.
  assert (selectbox_value (A := string) [] (Some 0) (question_pick ui) = None)
    as -> by (unfold selectbox_value; by destruct (question_pick ui)).
  do 3 (erewrite bind_ok; [|reflexivity]).
  unfold question_boxes, iterrows.
  destruct (values df) as [|row rows] eqn:Hvalues; [done|].
  rewrite fmap_cons. cbn [for_].
  apply list_elem_of_lookup in Hc as [j Hj].
  assert (length row = length (columns df)) as Hlen.
  { apply (wf_row df 0 row Hwf). by rewrite Hvalues. }
  erewrite bind_raise; cycle 1.
  { rewrite (getitem_zip_cell _ _ j c) by eauto using wf_nodup.
    erewrite bind_ok; [|reflexivity]. reflexivity. }
  unfold tell. simpl. by rewrite <- !(assoc_L (++)).
Qed.

Lemma question_without_questions_witness :
  let df := {| columns := ["Row_ID"]; values := [[Int 0]; [Int 1]] |} in
  let w := {| ss := initial_session; trace := [] |} in
  question_analysis_mode df (Some "Row_ID") untouched w
  = Raise KeyError
      (tell [Text "Question Analysis Viewer"; Text "---";
             Text "Select Question"; Selectbox_question (Some 0);
             Heading_question None; Text "divider"; Text "style"] w).
Proof.
  intros df w. apply (question_without_questions df "Row_ID" untouched w).
  - split; simpl; [by apply (bool_decide_unpack _) | by repeat constructor].
  - by apply (bool_decide_unpack _).
  - reflexivity.
  - discriminate.
Defined.

(** A table without rows (a file that has only its header line): the
    question view runs to its end, shows no box and leaves the session as
    it was, whatever the columns; the detail view stops with [TypeError]
    at the row it does not have, having put [None] under
    [selected_index]. *)
Theorem header_only_table (df : DataFrame) (name_col : option string)
    (ui : frontend) (w : world) :
  nrows df = 0%nat →
  (∃ w', question_analysis_mode df name_col ui w = Ok tt w' ∧
         ss w' = ss w ∧
         List.filter is_box (drop (length (trace w)) (trace w')) = []) ∧
  (∃ w', detail_mode df name_col ui w = Raise TypeError w' ∧
         selected_index (ss w') = None ∧
         List.filter is_box (drop (length (trace w)) (trace w')) = []).
Proof.
  intros Hrows. split.
  - eexists. split; [|split].
    + unfold question_analysis_mode.
      do 3 (erewrite bind_ok; [|reflexivity]).
      erewrite bind_ok; cycle 1.
      { apply selectbox_ok; [apply question_dropdown_accepts | apply for_ret]. }
      do 3 (erewrite bind_ok; [|reflexivity]).
      unfold question_boxes, iterrows.
      destruct (values df) as [|row rows] eqn:Hvalues;
        [|unfold nrows in Hrows; by rewrite Hvalues in Hrows].
      reflexivity.
    + done.
    + simpl. rewrite <- !(assoc_L (++)). by rewrite drop_app_length.
  - destruct (detail_mode_empty df name_col ui w Hrows)
      as (w' & Hrun & Hnone & Hbox).
    exists w'. split_and!; [done..|].
    induction Hbox as [|a l Ha _ IH]; [done|].
    simpl. rewrite IH. destruct a; try done. by destruct (Ha question answer).
Qed.

Lemma header_only_table_witness :
  let df := {| columns := ["Row_ID"; "Name"]; values := [] |} in
  let w := {| ss := initial_session; trace := [] |} in
  ∃ w', detail_mode df (Some "Name") untouched w = Raise TypeError w' ∧
        selected_index (ss w') = None ∧
        List.filter is_box (drop (length (trace w)) (trace w')) = [].
Proof.
  intros df w.
  apply (proj2 (header_only_table df (Some "Name") untouched w eq_refl)).
Defined.

End question_more.

(** ** Whole runs *)

Section runs_more.
Import Pd St Vis Spec.

Lemma mode_after_no_click (s : session_state) :
  mode_after s ≠ Detail → pending_click s = None.
Proof. unfold mode_after. by destruct (pending_click s). Qed.

Lemma at_view_no_click (idx : nat) (w : world) :
  pending_click (ss w) = None →
  at_view idx w
  = {| ss := with_view_mode (mode_after (ss w)) (ss w);
       trace := trace w ++ [Text "2. Configuration";
                            Selectbox_name (Some (Z.of_nat idx));
                            Text "3. View Mode"; Radio (mode_after (ss w))] |}.
Proof.
  intros Hnone. unfold at_view, navigation_record, apply_click, click_writes.
  by rewrite Hnone.
Qed.

(** A handled grid state without a selected row changes nothing: the key
    "response_grid" missing from the session, no "selection" entry under
    it, no "rows" entry in the selection, or an empty list of rows. *)
Theorem no_selection_no_change (w : world) :
  match response_grid (ss w) with
  | None => True
  | Some grid =>
      match selection grid with
      | None => True
      | Some sel => rows sel = None ∨ rows sel = Some []
      end
  end →
  handle_selection w = Ok tt w.
Proof.
  intros Hgrid. unfold handle_selection.
  erewrite bind_ok; [|reflexivity].
  destruct (response_grid (ss w)) as [[[[clicked]|]]|]; simpl in *; try done.
  by destruct Hgrid as [->| ->].
Qed.

Lemma no_selection_no_change_witness :
  let s := {| selected_index := Some 2;
              view_mode_selector := Some Question;
              response_grid := Some {| selection := Some {| rows := Some [] |} |} |} in
  let w := {| ss := s; trace := [Text "2. Configuration"] |} in
  handle_selection w = Ok tt w.
Proof. intros s w. apply (no_selection_no_change w). by right. Defined.

Lemma overview_run_ok (parsed df : DataFrame) (ui : frontend)
    (s : session_state) :
  add_row_id parsed = Some df → mode_after s = Overview →
  ∃ w', run (File (Some parsed)) ui s = Ok tt w' ∧
        ss w' = {| selected_index := selected_index s;
                   view_mode_selector := Some Overview;
                   response_grid :=
                     Some (default empty_selection (response_grid s)) |} ∧
        pending_click (ss w') = None ∧
        Grid ∈ trace w' ∧
        List.filter is_box (trace w') = [] ∧
        (∀ idx, Selectbox_row idx ∉ trace w').
Proof.
  intros Hload Hmode.
  pose proof (mode_after_no_click s ltac:(by rewrite Hmode)) as Hnone.
  destruct (default_name_index_some df) as (idx & Hidx & _).
  rewrite run_file, (explore_run parsed df ui _ idx) by done.
  cbn [ss]. rewrite Hmode.
  rewrite at_view_no_click by done.
  cbn [ss trace]. rewrite Hmode, overview_mode_run.
  eexists. split; [reflexivity|]. split_and!; [done| | | |].
  - simpl. unfold pending_click in *. simpl.
    by destruct (response_grid s).
  - simpl. rewrite !elem_of_cons. auto 20.
  - done.
  - intros i Hin. simpl in Hin.
    repeat (apply elem_of_cons in Hin as [Hin|Hin]; [discriminate Hin|]).
    by apply elem_of_nil in Hin.
Qed.

(** With the overview as the view to show (as in a fresh session), the run
    on any table that loads goes to its end: it shows the grid, no row
    dropdown and no box.  The session ends with the row position it had,
    the overview under the key of the radio, and under the key of the grid
    the selection it held there, an empty selection if it held none: no
    click is pending. *)
Theorem overview_run (parsed df : DataFrame) (ui : frontend)
    (s : session_state) :
  add_row_id parsed = Some df → mode_after s = Overview →
  ∃ w', run (File (Some parsed)) ui s = Ok tt w' ∧
        ss w' = {| selected_index := selected_index s;
                   view_mode_selector := Some Overview;
                   response_grid :=
                     Some (default empty_selection (response_grid s)) |} ∧
        pending_click (ss w') = None ∧
        Grid ∈ trace w' ∧
        List.filter is_box (trace w') = [] ∧
        (∀ idx, Selectbox_row idx ∉ trace w').
Proof. apply overview_run_ok. Qed.

Lemma overview_run_witness :
  let parsed := {| columns := ["Name"; "Score"];
                   values := [[Str "Ann"; Int 3]] |} in
  ∃ w', run (File (Some parsed)) untouched initial_session = Ok tt w' ∧
        ss w' = {| selected_index := Some 0;
                   view_mode_selector := Some Overview;
                   response_grid := Some empty_selection |} ∧
        pending_click (ss w') = None ∧
        Grid ∈ trace w' ∧
        List.filter is_box (trace w') = [] ∧
        (∀ idx, Selectbox_row idx ∉ trace w').
Proof.
  intros parsed.
  by apply (overview_run parsed (insert_index "Row_ID" parsed)
              untouched initial_session).
Defined.

Lemma available_cols_elem_of (df : DataFrame) (q : string) :
  q ∈ available_cols df → q ∈ columns df.
Proof.
  unfold available_cols. intros Hin%list_elem_of_In.
  apply filter_In in Hin as [Hin _]. by apply list_elem_of_In.
Qed.

Lemma question_spec_no_grid (jn jq : nat) (rows : list (list scalar)) :
  existsb is_grid (question_spec jn jq rows) = false.
Proof.
  unfold question_spec. induction rows as [|row rows IH]; [done|].
  rewrite bind_cons, existsb_app, IH. by case_decide.
Qed.

Lemma question_spec_no_radio (jn jq : nat) (rows : list (list scalar)) :
  existsb is_radio (question_spec jn jq rows) = false.
Proof.
  unfold question_spec. induction rows as [|row rows IH]; [done|].
  rewrite bind_cons, existsb_app, IH. by case_decide.
Qed.

(** With the question view as the view to show and the question dropdown
    left alone, the run on a well-formed table that has a column besides
    "Row_ID" goes to its end.  The question [q] is the first column that
    is not "Row_ID"; the boxes are those of the question view for [q] and
    the column [c] that the identifier dropdown returns (built on the
    default index, with what the user picked in it); the session ends
    with its row position, the question view under the key of the radio
    and nothing under the key of the grid. *)
Theorem question_run (parsed df : DataFrame) (ui : frontend)
    (s : session_state) (q : string) :
  wf parsed → add_row_id parsed = Some df → mode_after s = Question →
  question_pick ui = None → head (available_cols df) = Some q →
  ∃ w' idx c jn jq,
    run (File (Some parsed)) ui s = Ok tt w' ∧
    ss w' = {| selected_index := selected_index s;
               view_mode_selector := Some Question;
               response_grid := None |} ∧
    default_name_index df = Some idx ∧
    selectbox_value (columns df) (Some (Z.of_nat idx)) (name_pick ui)
      = Some c ∧
    columns df !! jn = Some c ∧ columns df !! jq = Some q ∧
    Heading_question (Some q) ∈ trace w' ∧
    List.filter is_box (trace w') = question_spec jn jq (values df).
Proof.
  intros Hwf Hload Hmode Hpick Hq.
  pose proof (mode_after_no_click s ltac:(by rewrite Hmode)) as Hnone.
  pose proof (add_row_id_wf _ _ Hwf Hload) as Hwf'.
  destruct (default_name_index_some df) as (idx & Hidx & _).
  destruct (name_col_elem_of df idx (name_pick ui)) as (c & Hc & Hin);
    [by eapply add_row_id_columns_nonempty|done|].
  assert (q ∈ columns df) as Hqin.
  { apply available_cols_elem_of. by apply head_Some_elem_of. }
  apply list_elem_of_lookup in Hin as [jn Hjn].
  apply list_elem_of_lookup in Hqin as [jq Hjq].
  rewrite run_file, (explore_run parsed df ui _ idx) by done.
  cbn [ss]. rewrite Hmode, Hc.
  rewrite at_view_no_click by done.
  cbn [ss trace]. rewrite Hmode.
  rewrite (question_analysis_mode_ok df c q ui _ jn jq) by
    (try done; rewrite Hpick, selectbox_value_default;
     by destruct (available_cols df)).
  cbn [on_script_finished].
  eexists _, idx, c, jn, jq. split; [reflexivity|].
  unfold drop_unbuilt, tell, question_page. cbn [ss trace].
  split_and!; try done.
  - rewrite !existsb_app, question_spec_no_grid, question_spec_no_radio.
    done.
  - rewrite !elem_of_app.
    right. left. rewrite !elem_of_cons. auto 20.
  - rewrite !List.filter_app. simpl. apply question_spec_boxes.
Qed.

Lemma question_run_witness :
  let parsed := {| columns := ["Name"; "Score"];
                   values := [[Str "Ann"; Int 3]; [Str "Bob"; NaN]] |} in
  let df := {| columns := ["Row_ID"; "Name"; "Score"];
               values := [[Int 0; Str "Ann"; Int 3];
                          [Int 1; Str "Bob"; NaN]] |} in
  let s := pick_view_mode Question initial_session in
  ∃ w' idx c jn jq,
    run (File (Some parsed)) untouched s = Ok tt w' ∧
    ss w' = {| selected_index := selected_index s;
               view_mode_selector := Some Question;
               response_grid := None |} ∧
    default_name_index df = Some idx ∧
    selectbox_value (columns df) (Some (Z.of_nat idx)) None = Some c ∧
    columns df !! jn = Some c ∧ columns df !! jq = Some "Name" ∧
    Heading_question (Some "Name") ∈ trace w' ∧
    List.filter is_box (trace w') = question_spec jn jq (values df).
Proof.
  intros parsed df s.
  apply (question_run parsed df untouched s "Name").
  - split; simpl; [by apply (bool_decide_unpack _) | by repeat constructor].
  - reflexivity.
  - reflexivity.
  - reflexivity.
  - reflexivity.
Defined.

(** A row position that is not a row of the loaded table does not go
    away: in the detail view the run stops at the row dropdown with the
    session exactly as it was, so the next run stops the same way; the run
    goes through again once the overview is picked in the radio. *)
Theorem stale_index_persists (parsed df : DataFrame) (ui : frontend)
    (s : session_state) (i : Z) :
  add_row_id parsed = Some df → (0 < nrows df)%nat →
  selected_index s = Some i → ¬ (0 ≤ i < Z.of_nat (nrows df)) →
  pending_click s = None → view_mode_selector s = Some Detail →
  (∃ w', run (File (Some parsed)) ui s = Raise StreamlitAPIException w' ∧
         ss w' = s ∧
         run (File (Some parsed)) ui (ss w') = Raise StreamlitAPIException w') ∧
  (∃ w', run (File (Some parsed)) ui (pick_view_mode Overview s) = Ok tt w' ∧
         selected_index (ss w') = Some i).
Proof.
  intros Hload Hrows Hsel Hi Hnone Hmode.
  assert (mode_after s = Detail) as Hafter.
  { unfold mode_after. by rewrite Hnone, Hmode. }
  assert (with_view_mode Detail s = s) as Hsame.
  { destruct s. simpl in *. by rewrite Hmode. }
  split.
  - assert (∃ w', run (File (Some parsed)) ui s
                  = Raise StreamlitAPIException w' ∧ ss w' = s)
      as (w' & Hrun & Hss).
    { destruct (default_name_index_some df) as (idx & Hidx & _).
      rewrite run_file, (explore_run parsed df ui _ idx) by done.
      cbn [ss]. rewrite Hafter.
      rewrite at_view_no_click by done. cbn [ss]. rewrite Hafter, Hsame.
      erewrite detail_mode_refused; [| |done..]; [|done].
      eexists. split; [reflexivity|]. done. }
    exists w'. by rewrite Hss.
  - destruct (overview_run_ok parsed df ui (pick_view_mode Overview s) Hload)
      as (w' & Hrun & Hss & _).
    { unfold mode_after. by rewrite pending_click_pick_view_mode, Hnone. }
    exists w'. split; [done|]. by rewrite Hss.
Qed.

Lemma stale_index_persists_witness :
  let parsed := {| columns := ["Name"]; values := [[Str "Ann"]] |} in
  let s := {| selected_index := Some 3;
              view_mode_selector := Some Detail;
              response_grid := None |} in
  ∃ w', run (File (Some parsed)) untouched (pick_view_mode Overview s)
        = Ok tt w' ∧
        selected_index (ss w') = Some 3.
Proof.
  intros parsed s.
  apply (λ H1 H2,
           proj2 (stale_index_persists parsed (insert_index "Row_ID" parsed)
                    untouched s 3 eq_refl H1 eq_refl H2 eq_refl eq_refl)).
  - unfold nrows. simpl. lia.
  - unfold nrows. simpl. lia.
Defined.

(** Without a table there is nothing of a table on the page: with no file
    and the example button not pressed, and when [read_csv] raises, the
    run goes to its end and builds no selection widget, no grid and no
    box; the error box is there exactly when it was [read_csv] that
    raised.  The session keeps its row position; what it held under the
    keys of the radio and of the grid, a pending click included, is gone
    at the end of the run, since neither widget was built. *)
Theorem nothing_to_show (up : upload) (ui : frontend) (s : session_state) :
  up = NoFile ∨ up = Example None ∨ up = File None →
  ∃ w', run up ui s = Ok tt w' ∧
        ss w' = {| selected_index := selected_index s;
                   view_mode_selector := None;
                   response_grid := None |} ∧
        Forall (λ a, is_selection_widget a = false ∧ is_box a = false ∧
                     a ≠ Grid) (trace w') ∧
        (Error_box ∈ trace w' ↔ up ≠ NoFile).
Proof.
  intros Hup.
  assert (∃ t, run up ui s
               = Ok tt {| ss := {| selected_index := selected_index s;
                                   view_mode_selector := None;
                                   response_grid := None |};
                          trace := t |} ∧
               Forall (λ a, is_selection_widget a = false ∧
                            is_box a = false ∧ a ≠ Grid) t ∧
               (Error_box ∈ t ↔ up ≠ NoFile)) as (t & Hrun & Ht & Herr).
  { destruct Hup as [->|[->| ->]].
    - exists (page_head ++ no_file_note). split; [reflexivity|].
      split; [by repeat constructor|]. split; [|done]. simpl. intros Hin.
      repeat (apply elem_of_cons in Hin as [Hin|Hin]; [discriminate Hin|]).
      by apply elem_of_nil in Hin.
    - exists (page_head ++ no_file_note ++ [Error_box]).
      split; [reflexivity|]. split; [by repeat constructor|].
      split; [done|]. intros _. simpl. rewrite !elem_of_cons. auto 20.
    - exists (page_head ++ [Error_box]).
      split; [reflexivity|]. split; [by repeat constructor|].
      split; [done|]. intros _. simpl. rewrite !elem_of_cons. auto 20. }
  by eexists.
Qed.

Lemma nothing_to_show_witness :
  ∃ w', run (File None) untouched
          (click_row 1 (pick_view_mode Detail initial_session)) = Ok tt w' ∧
        ss w' = {| selected_index := Some 0;
                   view_mode_selector := None;
                   response_grid := None |} ∧
        Forall (λ a, is_selection_widget a = false ∧ is_box a = false ∧
                     a ≠ Grid) (trace w') ∧
        (Error_box ∈ trace w' ↔ File None ≠ NoFile).
Proof.
  apply (nothing_to_show (File None) untouched
           (click_row 1 (pick_view_mode Detail initial_session))).
  by right; right.
Defined.

End runs_more.

(** ** The example button *)

Section example_button.
Import Pd St Vis Spec.

Lemma framed_bind {A B} (m : M A) (k : A → M B) :
  framed m → (∀ a, framed (k a)) → framed (bind m k).
Proof.
  intros Hm Hk s t t1 Ht. unfold bind. rewrite (Hm s t t1 Ht).
  destruct (m {| ss := s; trace := t1 |}) as [a [s1 t1']|e w]; simpl; [|done].
  by apply Hk.
Qed.

Lemma framed_ret {A} (a : A) : framed (ret a).
Proof. by intros s t t1 _. Qed.

Lemma framed_raise {A} (e : exn) : framed (raise (A := A) e).
Proof. by intros s t t1 _. Qed.

Lemma framed_or_raise {A} (e : exn) (o : option A) : framed (or_raise e o).
Proof. destruct o; [apply framed_ret | apply framed_raise]. Qed.

Lemma framed_get : framed get.
Proof. by intros s t t1 _. Qed.

Lemma framed_say (a : action) : framed (say a).
Proof.
  intros s t t1 _. unfold say. simpl. by rewrite (assoc_L (++)).
Qed.

Lemma framed_for {A} (l : list A) (body : A → M unit) :
  (∀ x, framed (body x)) → framed (for_ l body).
Proof.
  intros Hbody. induction l as [|x l IH]; simpl.
  - apply framed_ret.
  - apply framed_bind; [apply Hbody | by intros _].
Qed.

Lemma framed_set_selected_index (v : option Z) : framed (set_selected_index v).
Proof.
  intros s t t1 _. unfold set_selected_index. simpl.
  by rewrite (assoc_L (++)).
Qed.

Lemma framed_set_view_mode_selector (m : view_mode) :
  framed (set_view_mode_selector m).
Proof.
  intros s t t1 Ht. unfold set_view_mode_selector. simpl.
  rewrite existsb_app, Ht. simpl.
  destruct (existsb is_radio t1); simpl; [done|].
  by rewrite (assoc_L (++)).
Qed.

Lemma framed_radio : framed radio.
Proof.
  intros s t t1 _. unfold radio. simpl. by rewrite (assoc_L (++)).
Qed.

Lemma framed_dataframe : framed dataframe.
Proof.
  intros s t t1 _. unfold dataframe. simpl. by rewrite (assoc_L (++)).
Qed.

Lemma on_script_finished_prepend {A} (t : list action) (o : outcome A) :
  existsb is_radio t = false → existsb is_grid t = false →
  on_script_finished (prepend t o) = prepend t (on_script_finished o).
Proof.
  intros Hradio Hgrid. destruct o as [a w|e w]; [|done]. simpl.
  unfold drop_unbuilt. simpl. by rewrite !existsb_app, Hradio, Hgrid.
Qed.

Lemma framed_selectbox {A} (widget : option Z → action) (options : list A)
    (index : option Z) (format_func : A → M unit) (picked : option nat) :
  (∀ x, framed (format_func x)) →
  framed (selectbox widget options index format_func picked).
Proof.
  intros Hf. unfold selectbox.
  destruct (index_refused options index); [apply framed_raise|].
  apply framed_bind; [by apply framed_for|]. intros _.
  apply framed_bind; [apply framed_say|]. intros _. apply framed_ret.
Qed.

Lemma framed_data_loading (parsed : option DataFrame) (ui : frontend) :
  framed (data_loading parsed ui).
Proof.
  unfold data_loading, explore, navigation, handle_selection, overview_mode,
    detail_mode, question_analysis_mode, detail_boxes, question_boxes,
    get_label.
  repeat lazymatch goal with
  | |- framed (bind _ _) => apply framed_bind; [|intros ?]
  | |- framed (ret _) => apply framed_ret
  | |- framed (raise _) => apply framed_raise
  | |- framed (or_raise _ _) => apply framed_or_raise
  | |- framed get => apply framed_get
  | |- framed (say _) => apply framed_say
  | |- framed (for_ _ _) => apply framed_for; intros ?
  | |- framed (set_selected_index _) => apply framed_set_selected_index
  | |- framed (set_view_mode_selector _) => apply framed_set_view_mode_selector
  | |- framed radio => apply framed_radio
  | |- framed dataframe => apply framed_dataframe
  | |- framed (selectbox _ _ _ _ _) => apply framed_selectbox; intros ?
  | |- framed (let _ := _ in _) => cbv zeta
  | |- framed (match ?x with _ => _ end) => destruct x
  | |- framed (if ?x then _ else _) => destruct x
  end.
Qed.

(** Pressing "Load Example Survey Data" gives the run of an upload of the
    same text: the same outcome and the same session, and the same page
    but for the three notes shown while no file is uploaded, which come
    right after the head of the page. *)
Theorem example_is_upload (parsed : option DataFrame) (ui : frontend)
    (s : session_state) :
  ∃ o : outcome unit,
    run (File parsed) ui s = prepend page_head o ∧
    run (Example parsed) ui s = prepend (page_head ++ no_file_note) o.
Proof.
  exists (on_script_finished (data_loading parsed ui {| ss := s; trace := [] |})).
  split.
  - change (run (File parsed) ui s)
      with (on_script_finished
              (data_loading parsed ui {| ss := s; trace := page_head |})).
    rewrite <- on_script_finished_prepend by done. f_equal.
    rewrite <- (app_nil_r page_head) at 1.
    by apply framed_data_loading.
  - change (run (Example parsed) ui s)
      with (on_script_finished
              (data_loading parsed ui
                 {| ss := s; trace := page_head ++ no_file_note |})).
    rewrite <- on_script_finished_prepend by done. f_equal.
    rewrite <- (app_nil_r (page_head ++ no_file_note)) at 1.
    by apply framed_data_loading.
Qed.

End example_button.
